(** * homework_bot: a shallow embedding of [homework.py]

    The bot polls the Practicum homework API, turns the newest homework
    record into a message and relays it through a Telegram bot.  The
    embedding follows the source function by function:

    - JSON bodies are Python values ([pyval]); a JSON object is a finite
      map from strings to values;
    - Python's exceptions are values of [exn]; a statement either returns
      or raises ([outcome]);
    - the body of [main] runs in a small state-and-exception monad [M]
      whose state holds the two loop variables and the list of observable
      effects (HTTP requests, bot calls, log lines, sleeps).  An exception
      leaves the state as it was when it was raised, as in Python;
    - everything outside the program (the HTTP service, the bot transport,
      the clock) is an explicit argument. *)

From Stdlib Require Import ZArith String Ascii Lia.
From Stdlib Require Import Floats.SpecFloat.
From stdpp Require Import gmap strings list fin_maps.

Set Warnings "-register-all".
Set Default Proof Using "Type".
Open Scope string_scope.

(** ** Python values and exceptions *)

(** The values [json()] can produce, plus nothing else: the program never
    builds a value of another type. *)
Inductive pyval :=
| PNone
| PBool (b : bool)
| PInt (n : Z)
| PFloat (f : spec_float)
| PStr (s : string)
| PList (l : list pyval)
| PDict (d : gmap string pyval).

(** Instances of [Exception].  [TypeError], [KeyError], [AttributeError]
    and [IndexError] are the interpreter's; [HTTPError] is the one
    [requests] raises from [raise_for_status]; [OtherException] is an
    instance of any other class derived from [Exception], named by its
    class: what [requests], [json] or [telegram] raise, and the program's
    own [ResponseError]. *)
Inductive exn :=
| TypeError (msg : string)
| KeyError (key : pyval)
| AttributeError (msg : string)
| IndexError (msg : string)
| HTTPError (status_code : Z) (reason : pyval)
| OtherException (cls : string) (msg : string).

(** Modelled from the spec: the class [ResponseError] of the module
    [exceptions], which is not among the sources.  The specification has
    the errors it signals (a malformed body, an unknown status) caught at
    the boundary of the loop with every other error, so it is taken as a
    class derived from [Exception] that carries its message. *)
Definition ResponseError (msg : string) : exn := OtherException "ResponseError" msg.

Inductive outcome (A : Type) :=
| Return (a : A)
| Raise (e : exn).
Arguments Return {A} a.
Arguments Raise {A} e.

(** [str()] as the interpreter computes it.  The program only ever formats
    values with f-strings, so the rendering of exceptions and of values
    that are not already strings is left to the runtime. *)
Class PyRuntime := {
  str_exn : exn -> string;
  str_other : pyval -> string
}.

Module Py.

Definition isinstance_str (v : pyval) : bool :=
  match v with PStr _ => true | _ => false end.

(** [bool] is a subclass of [int]. *)
Definition isinstance_int (v : pyval) : bool :=
  match v with PInt _ | PBool _ => true | _ => false end.

Definition isinstance_dict (v : pyval) : bool :=
  match v with PDict _ => true | _ => false end.

Definition isinstance_list (v : pyval) : bool :=
  match v with PList _ => true | _ => false end.

Definition type_name (v : pyval) : string :=
  match v with
  | PNone => "NoneType"
  | PBool _ => "bool"
  | PInt _ => "int"
  | PFloat _ => "float"
  | PStr _ => "str"
  | PList _ => "list"
  | PDict _ => "dict"
  end.

Definition quote : string := String "039" EmptyString.

Definition spec_float_is_zero (f : spec_float) : bool :=
  match f with S754_zero _ => true | _ => false end.

(** Truth value of [if v:]. *)
Definition truthy (v : pyval) : bool :=
  match v with
  | PNone => false
  | PBool b => b
  | PInt n => negb (n =? 0)%Z
  | PFloat f => negb (spec_float_is_zero f)
  | PStr s => negb (String.eqb s "")
  | PList l => match l with [] => false | _ :: _ => true end
  | PDict d => negb (bool_decide (d = ∅))
  end.

(** [v.get(key)]: a dict answers [None] for a missing key; no other
    value of [pyval] has the method. *)
Definition get (v : pyval) (key : string) : outcome pyval :=
  match v with
  | PDict d => Return (default PNone (d !! key))
  | _ => Raise (AttributeError
                  (quote ++ type_name v ++ quote
                   ++ " object has no attribute " ++ quote ++ "get" ++ quote))
  end.

(** [v[key]] for a string literal [key]. *)
Definition getitem_str (v : pyval) (key : string) : outcome pyval :=
  match v with
  | PDict d =>
      match d !! key with
      | Some x => Return x
      | None => Raise (KeyError (PStr key))
      end
  | PList _ => Raise (TypeError "list indices must be integers or slices, not str")
  | PStr _ => Raise (TypeError "string indices must be integers")
  | _ => Raise (TypeError (quote ++ type_name v ++ quote ++ " object is not subscriptable"))
  end.

(** The bytes of the first code point of a UTF-8 string. *)
Fixpoint utf8_continuation (s : string) : string :=
  match s with
  | String c s' =>
      if ((128 <=? nat_of_ascii c) && (nat_of_ascii c <? 192))%nat
      then String c (utf8_continuation s')
      else EmptyString
  | EmptyString => EmptyString
  end.

(** [v[0]]. *)
Definition getitem_0 (v : pyval) : outcome pyval :=
  match v with
  | PList l =>
      match l with
      | x :: _ => Return x
      | [] => Raise (IndexError "list index out of range")
      end
  | PStr s =>
      match s with
      | String c s' => Return (PStr (String c (utf8_continuation s')))
      | EmptyString => Raise (IndexError "string index out of range")
      end
  | PDict _ => Raise (KeyError (PInt 0))
  | _ => Raise (TypeError (quote ++ type_name v ++ quote ++ " object is not subscriptable"))
  end.

(** [table.get(key)] on a dict whose keys are strings: an unhashable
    key raises, a key of another type is simply not found. *)
Definition table_get (table : gmap string string) (key : pyval) : outcome (option string) :=
  match key with
  | PStr s => Return (table !! s)
  | PList _ | PDict _ => Raise (TypeError ("unhashable type: " ++ quote ++ type_name key ++ quote))
  | _ => Return None
  end.

(** [{v}] inside an f-string. *)
Definition format `{PyRuntime} (v : pyval) : string :=
  match v with
  | PStr s => s
  | _ => str_other v
  end.

Definition format_error `{PyRuntime} (e : option exn) : string :=
  match e with
  | Some e => str_exn e
  | None => "None"
  end.

End Py.

(** ** Effects *)

Inductive level := INFO | ERROR | CRITICAL.

Inductive event :=
| HttpGet (from_date : pyval)
| SendMessage (chat_id : pyval) (text : string)
| Log (lvl : level) (text : string)
| Sleep (seconds : Z).

(** The loop variables of [main] and what the process has done so far. *)
Record state := {
  timestamp : pyval;
  last_sent_error : string;
  output : list event
}.

Definition M (A : Type) : Type := state -> outcome A * state.

Definition ret {A} (a : A) : M A := fun s => (Return a, s).

Definition bind {A B} (m : M A) (k : A -> M B) : M B :=
  fun s =>
    match m s with
    | (Return a, s') => k a s'
    | (Raise e, s') => (Raise e, s')
    end.

Notation "x <- m ;; k" := (bind m (fun x => k))
  (at level 100, m at next level, right associativity).
Notation "m ;; k" := (bind m (fun _ => k))
  (at level 100, right associativity).

(** A pure computation run as a statement. *)
Definition lift {A} (o : outcome A) : M A := fun s => (o, s).

(** [try: body except Exception as error: handler error]. *)
Definition try_except {A} (body : M A) (handler : exn -> M A) : M A :=
  fun s =>
    match body s with
    | (Return a, s') => (Return a, s')
    | (Raise e, s') => handler e s'
    end.

(** [try: body finally: final].  An exception of [final] replaces the
    outcome of [body]. *)
Definition try_finally {A} (body : M A) (final : M unit) : M A :=
  fun s =>
    match body s with
    | (o, s') =>
        match final s' with
        | (Return _, s'') => (o, s'')
        | (Raise e, s'') => (Raise e, s'')
        end
    end.

Definition emit (ev : event) : M unit :=
  fun s => (Return tt, {| timestamp := timestamp s;
                          last_sent_error := last_sent_error s;
                          output := output s ++ [ev] |}).

Definition get_timestamp : M pyval := fun s => (Return (timestamp s), s).

Definition set_timestamp (v : pyval) : M unit :=
  fun s => (Return tt, {| timestamp := v;
                          last_sent_error := last_sent_error s;
                          output := output s |}).

Definition get_last_sent_error : M string := fun s => (Return (last_sent_error s), s).

Definition set_last_sent_error (msg : string) : M unit :=
  fun s => (Return tt, {| timestamp := timestamp s;
                          last_sent_error := msg;
                          output := output s |}).

Definition logger (lvl : level) (text : string) : M unit := emit (Log lvl text).

Definition time_sleep (seconds : Z) : M unit := emit (Sleep seconds).

(** ** The outside world *)

(** What [requests.get] hands back.  [is_Response] tells a real
    [requests.models.Response] from a stand-in, as the tests use;
    [class_name] is the name of the object's class and [has_url] tells
    whether it has an attribute [url], which a real [Response] always
    has; [json] is the outcome of the [json()] method.  A stand-in is
    taken to have [status_code] and [json()], the two members the program
    itself uses. *)
Record response_obj := {
  is_Response : bool;
  class_name : string;
  has_url : bool;
  status_code : Z;
  reason : pyval;
  json : outcome pyval
}.

(** The two services as they behave during one iteration of the loop. *)
Record world := {
  requests_get : pyval -> outcome response_obj;
  bot_sendMessage : pyval -> string -> outcome unit
}.

(** The three module-level constants read from the environment. *)
Record environ := {
  PRACTICUM_TOKEN : pyval;
  TELEGRAM_TOKEN : pyval;
  TELEGRAM_CHAT_ID : pyval
}.

Definition http_get (w : world) (from_date : pyval) : M response_obj :=
  emit (HttpGet from_date) ;; lift (requests_get w from_date).

Definition sendMessage (w : world) (chat_id : pyval) (text : string) : M unit :=
  emit (SendMessage chat_id text) ;; lift (bot_sendMessage w chat_id text).

(** [requests.models.Response.raise_for_status], run on [r]: a client or
    server error builds its message from [reason] and [url] and raises
    [HTTPError]; every other status passes, and then neither attribute is
    read.  On an object without [url] the message cannot be built. *)
Definition raise_for_status (r : response_obj) : outcome unit :=
  if ((400 <=? status_code r) && (status_code r <? 600))%Z
  then
    if is_Response r || has_url r
    then Raise (HTTPError (status_code r) (reason r))
    else Raise (AttributeError
                  (Py.quote ++ class_name r ++ Py.quote
                   ++ " object has no attribute " ++ Py.quote ++ "url" ++ Py.quote))
  else Return tt.

(** ** The program *)

Definition RETRY_TIME : Z := 600.

Definition HOMEWORK_VERDICTS : gmap string string :=
  {[ "approved" := "Работа проверена: ревьюеру всё понравилось. Ура!";
     "reviewing" := "Работа взята на проверку ревьюером.";
     "rejected" := "Работа проверена: у ревьюера есть замечания." ]}.

Record send_result := {
  success : bool;
  error : option exn
}.

Definition dquote : string := String "034" EmptyString.

(** The f-string returned by [parse_status]. *)
Definition status_message (homework_name verdict : string) : string :=
  "Изменился статус проверки работы " ++ dquote ++ homework_name ++ dquote
  ++ ". " ++ verdict.

(** The f-string built in the [except] block of [main]. *)
Definition failure_message `{PyRuntime} (error : exn) : string :=
  "Сбой в работе программы: " ++ str_exn error.

(** How a run of [main] stands after the turns it was given: it left
    through [exit], an exception escaped, or the loop is still going. *)
Inductive status :=
| Exited (code : Z)
| Uncaught (e : exn)
| Looping (s : state).

Section Program.

Context `{PyRuntime}.
Variable env : environ.

Definition send_message (w : world) (message : string) : M send_result :=
  try_except
    (sendMessage w (TELEGRAM_CHAT_ID env) message ;;
     ret {| success := true; error := None |})
    (fun error => ret {| success := false; error := Some error |}).

Definition get_api_answer (w : world) (timestamp : pyval) : M pyval :=
  response <- http_get w timestamp ;;
  let response :=
    if negb (is_Response response)
    then {| is_Response := is_Response response;
            class_name := class_name response;
            has_url := has_url response;
            status_code := status_code response;
            reason := PNone;
            json := json response |}
    else response in
  lift (raise_for_status response) ;;
  lift (json response).

Definition check_response (response : pyval) : outcome pyval :=
  if negb (Py.isinstance_dict response)
  then Raise (TypeError "Ответ API не является словарём")
  else
    match Py.get response "homeworks" with
    | Raise e => Raise e
    | Return homeworks =>
        match homeworks with
        | PNone => Raise (ResponseError "Ошибочный ответ API. Отсутствует список работ")
        | _ =>
            if negb (Py.isinstance_list homeworks)
            then Raise (TypeError "Ошибочный ответ API. Некорректный формат списка работ")
            else Return homeworks
        end
    end.

Definition parse_status (homework : pyval) : outcome string :=
  match Py.getitem_str homework "homework_name" with
  | Raise e => Raise e
  | Return homework_name =>
      match Py.getitem_str homework "status" with
      | Raise e => Raise e
      | Return homework_status =>
          match Py.table_get HOMEWORK_VERDICTS homework_status with
          | Raise e => Raise e
          | Return None => Raise (ResponseError "Недокументированный статус домашней работы")
          | Return (Some verdict) =>
              Return (status_message (Py.format homework_name) verdict)
          end
      end
  end.

Definition check_tokens : bool :=
  Py.isinstance_str (PRACTICUM_TOKEN env) && Py.isinstance_str (TELEGRAM_TOKEN env)
  && (Py.isinstance_str (TELEGRAM_CHAT_ID env)
      || Py.isinstance_int (TELEGRAM_CHAT_ID env)).

(** The [try] block of the loop in [main]. *)
Definition main_try (w : world) : M unit :=
  timestamp <- get_timestamp ;;
  response <- get_api_answer w timestamp ;;
  lift (check_response response) ;;
  homeworks <- lift (Py.get response "homeworks") ;;
  (if Py.truthy homeworks then
     homework <- lift (Py.getitem_0 homeworks) ;;
     msg <- lift (parse_status homework) ;;
     sent_msg_result <- send_message w msg ;;
     if success sent_msg_result then
       logger INFO ("Отправлено сообщение для id " ++ Py.format (TELEGRAM_CHAT_ID env))
     else
       logger ERROR ("Ошибка при отправке сообщения для id "
                     ++ Py.format (TELEGRAM_CHAT_ID env)
                     ++ " (" ++ Py.format_error (error sent_msg_result) ++ ")")
   else ret tt) ;;
  timestamp <- lift (Py.get response "current_date") ;;
  set_timestamp timestamp.

(** The [except Exception as error] block. *)
Definition main_except (w : world) (error : exn) : M unit :=
  let msg := failure_message error in
  last_sent_error <- get_last_sent_error ;;
  (if negb (String.eqb msg last_sent_error) then
     send_message w msg ;;
     set_last_sent_error msg
   else ret tt) ;;
  logger ERROR msg.

(** One turn of [while True]. *)
Definition main_iteration (w : world) : M unit :=
  try_finally
    (try_except (main_try w) (main_except w))
    (time_sleep RETRY_TIME).

(** [while True] run against the worlds of its first turns. *)
Fixpoint main_loop (ws : list world) : M unit :=
  match ws with
  | [] => ret tt
  | w :: ws' => main_iteration w ;; main_loop ws'
  end.

(** [main].  [Bot] is what the constructor [telegram.Bot] does with the
    token it is given, and [now] the value of [int(time.time())].  The
    constructor is called outside the [try], so what it raises is not
    caught; [exit(-1)] ends the run before it is called. *)
Definition main (Bot : pyval -> outcome unit) (now : Z) (ws : list world)
  : status * list event :=
  if negb check_tokens then
    (Exited (-1),
     [Log CRITICAL ("Ошибка при загрузке переменных окружения. "
                    ++ "Программа принудительно остановлена")])
  else
    match Bot (TELEGRAM_TOKEN env) with
    | Raise e => (Uncaught e, [])
    | Return _ =>
        let s0 := {| timestamp := PInt now; last_sent_error := ""; output := [] |} in
        match main_loop ws s0 with
        | (Return _, s) => (Looping s, output s)
        | (Raise e, s) => (Uncaught e, output s)
        end
    end.

End Program.

(** ** Observations on a run *)

(** The texts handed to the bot, in order. *)
Fixpoint sends (evs : list event) : list string :=
  match evs with
  | [] => []
  | SendMessage _ text :: evs' => text :: sends evs'
  | _ :: evs' => sends evs'
  end.

(** The lengths of the pauses, in order. *)
Fixpoint sleeps (evs : list event) : list Z :=
  match evs with
  | [] => []
  | Sleep n :: evs' => n :: sleeps evs'
  | _ :: evs' => sleeps evs'
  end.

(** The lines logged at level [lvl], in order. *)
Fixpoint logged (lvl : level) (evs : list event) : list string :=
  match evs with
  | [] => []
  | Log l text :: evs' =>
      match l, lvl with
      | INFO, INFO | ERROR, ERROR | CRITICAL, CRITICAL => text :: logged lvl evs'
      | _, _ => logged lvl evs'
      end
  | _ :: evs' => logged lvl evs'
  end.

(** The requests made, in order. *)
Fixpoint requests (evs : list event) : list pyval :=
  match evs with
  | [] => []
  | HttpGet from_date :: evs' => from_date :: requests evs'
  | _ :: evs' => requests evs'
  end.

(** The state once the request of a turn has gone out. *)
Definition requested (s : state) : state :=
  {| timestamp := timestamp s;
     last_sent_error := last_sent_error s;
     output := output s ++ [HttpGet (timestamp s)] |}.

(** [s] with [evs] added to what the process has done. *)
Definition extend (s : state) (evs : list event) : state :=
  {| timestamp := timestamp s;
     last_sent_error := last_sent_error s;
     output := output s ++ evs |}.

(** What the process did between [s] and [s']. *)
Definition since (s s' : state) : list event :=
  drop (length (output s)) (output s').

Section Runs.

Context `{PyRuntime}.
Variable env : environ.

(** The log line that follows a call of [send_message] in the [try] block. *)
Definition report (r : send_result) : event :=
  if success r then
    Log INFO ("Отправлено сообщение для id " ++ Py.format (TELEGRAM_CHAT_ID env))
  else
    Log ERROR ("Ошибка при отправке сообщения для id "
               ++ Py.format (TELEGRAM_CHAT_ID env)
               ++ " (" ++ Py.format_error (error r) ++ ")").

(** What [send_message] returns for the text [message] under [w]. *)
Definition sent (w : world) (message : string) : send_result :=
  match bot_sendMessage w (TELEGRAM_CHAT_ID env) message with
  | Return _ => {| success := true; error := None |}
  | Raise e => {| success := false; error := Some e |}
  end.

(** The [try] block of a turn started in [s] under [w] raises, and the
    message built from the exception is [msg]. *)
Definition fails_with (msg : string) (w : world) (s : state) : Prop :=
  exists e s', main_try env w s = (Raise e, s') /\ failure_message e = msg.

(** Every turn of the run of [ws] from [s] fails with the message [msg]. *)
Fixpoint all_fail_with (msg : string) (ws : list world) (s : state) : Prop :=
  match ws with
  | [] => True
  | w :: ws' =>
      fails_with msg w s /\ all_fail_with msg ws' (snd (main_iteration env w s))
  end.

(** The state after the run of [ws] from [s]. *)
Definition after (ws : list world) (s : state) : state :=
  snd (main_loop env ws s).

End Runs.

(** ** The specification's wording, where it is compared with the code *)

Definition nonempty_str (v : pyval) : Prop :=
  exists s, v = PStr s /\ s <> "".

Definition is_str (v : pyval) : Prop := exists s, v = PStr s.

Definition is_int (v : pyval) : Prop :=
  (exists n, v = PInt n) \/ (exists b, v = PBool b).

(** "All three credentials are non-empty strings (chat id may alternatively
    be an integer)". *)
Definition spec_credentials_present (env : environ) : Prop :=
  nonempty_str (PRACTICUM_TOKEN env) /\ nonempty_str (TELEGRAM_TOKEN env)
  /\ (nonempty_str (TELEGRAM_CHAT_ID env) \/ is_int (TELEGRAM_CHAT_ID env)).


(** "Only missing or wrongly-typed credentials at startup cause process
    exit": whenever [main] stops, by [exit] or by an exception, one of
    the credentials is missing or of the wrong type. *)
Definition spec_only_credentials_stop `{PyRuntime} : Prop :=
  forall (env : environ) (Bot : pyval -> outcome unit) (now : Z) (ws : list world),
    (forall s, fst (main env Bot now ws) <> Looping s) ->
    ~ (is_str (PRACTICUM_TOKEN env) /\ is_str (TELEGRAM_TOKEN env)
       /\ (is_str (TELEGRAM_CHAT_ID env) \/ is_int (TELEGRAM_CHAT_ID env))).

(** "Fails with HttpError for every response whose status is not 2xx". *)
Definition spec_fetch_rejects_non_2xx : Prop :=
  forall (w : world) (ts : pyval) (s : state) (r : response_obj),
    requests_get w ts = Return r ->
    ~ (200 <= status_code r < 300)%Z ->
    exists why s', get_api_answer w ts s = (Raise (HTTPError (status_code r) why), s').

(** ** Sample data *)

(** A rendering of [str()] for the worked examples. *)
Definition sample_runtime : PyRuntime :=
  {| str_exn := fun e =>
       match e with
       | TypeError msg | AttributeError msg | IndexError msg => msg
       | KeyError (PStr key) => Py.quote ++ key ++ Py.quote
       | KeyError _ => "KeyError"
       | HTTPError _ _ => "HTTPError"
       | OtherException _ msg => msg
       end;
     str_other := Py.type_name |}.

Definition sample_env : environ :=
  {| PRACTICUM_TOKEN := PStr "practicum-token";
     TELEGRAM_TOKEN := PStr "telegram-token";
     TELEGRAM_CHAT_ID := PStr "12345" |}.

(** Every variable set, to the empty string. *)
Definition empty_env : environ :=
  {| PRACTICUM_TOKEN := PStr ""; TELEGRAM_TOKEN := PStr ""; TELEGRAM_CHAT_ID := PStr "" |}.

(** [TELEGRAM_CHAT_ID] unset: [os.getenv] gives [None]. *)
Definition no_chat_env : environ :=
  {| PRACTICUM_TOKEN := PStr "practicum-token";
     TELEGRAM_TOKEN := PStr "telegram-token";
     TELEGRAM_CHAT_ID := PNone |}.

Definition http_response (code : Z) (body : pyval) : response_obj :=
  {| is_Response := true; class_name := "Response"; has_url := true;
     status_code := code; reason := PNone; json := Return body |}.

(** A world in which the service answers [r] and the bot behaves as [b]. *)
Definition const_world (r : outcome response_obj) (b : outcome unit) : world :=
  {| requests_get := fun _ => r; bot_sendMessage := fun _ _ => b |}.

Definition hw1 : pyval :=
  PDict {[ "homework_name" := PStr "hw1"; "status" := PStr "approved" ]}.

(** The body of the first scenario, with [rest] after its record. *)
Definition scenario_body (rest : list pyval) : pyval :=
  PDict {[ "homeworks" := PList (hw1 :: rest); "current_date" := PInt 1700000000 ]}.

Definition empty_body : pyval :=
  PDict {[ "homeworks" := PList []; "current_date" := PInt 1700000600 ]}.

(** A body with a cursor but without the list of homeworks. *)
Definition cursor_only_body : pyval :=
  PDict {[ "current_date" := PInt 5 ]}.

Definition start (ts : Z) : state :=
  {| timestamp := PInt ts; last_sent_error := ""; output := [] |}.

Definition transport_down : exn := OtherException "NetworkError" "bot is unreachable".

(** The service answers 500 and the bot cannot be reached. *)
Definition server_error_world : world :=
  const_world (Return (http_response 500 PNone)) (Raise transport_down).

(** The service answers with the body of the first scenario. *)
Definition approved_world : world :=
  const_world (Return (http_response 200 (scenario_body []))) (Return tt).

(** The service answers 200 with a body that lacks the list. *)
Definition missing_list_world : world :=
  const_world (Return (http_response 200 cursor_only_body)) (Return tt).

Definition server_error_text : string := "Сбой в работе программы: HTTPError".

(** ** The cursor along a run *)

Section Cursors.

Context `{PyRuntime}.
Variable env : environ.

(** The value of [timestamp] at the start of each turn of the run of [ws]
    from [s]. *)
Fixpoint cursors (ws : list world) (s : state) : list pyval :=
  match ws with
  | [] => []
  | w :: ws' => timestamp s :: cursors ws' (snd (main_iteration env w s))
  end.

End Cursors.

(** ** More sample data *)

(** The service answers with an empty list of homeworks. *)
Definition empty_list_world : world :=
  const_world (Return (http_response 200 empty_body)) (Return tt).


(** A record whose status is not in the table. *)
Definition hw_moved : pyval :=
  PDict {[ "homework_name" := PStr "hw1"; "status" := PStr "moved" ]}.

Definition moved_body : pyval :=
  PDict {[ "homeworks" := PList [hw_moved]; "current_date" := PInt 1700001200 ]}.

Definition moved_world : world :=
  const_world (Return (http_response 200 moved_body)) (Return tt).

(** A stand-in for a response, as the tests use, answering 503; it has
    no attribute [url]. *)
Definition stand_in_503 : response_obj :=
  {| is_Response := false; class_name := "MockResponse"; has_url := false;
     status_code := 503; reason := PStr "Service Unavailable"; json := Return PNone |}.

(** The same stand-in given an attribute [url]. *)
Definition stand_in_503_url : response_obj :=
  {| is_Response := false; class_name := "MockResponse"; has_url := true;
     status_code := 503; reason := PStr "Service Unavailable"; json := Return PNone |}.

(** A real response answering 404. *)
Definition not_found_404 : response_obj :=
  {| is_Response := true; class_name := "Response"; has_url := true;
     status_code := 404; reason := PStr "Not Found"; json := Return PNone |}.

(** A 200 answer whose body is not JSON. *)
Definition not_json_200 : response_obj :=
  {| is_Response := true; class_name := "Response"; has_url := true;
     status_code := 200; reason := PStr "OK";
     json := Raise (OtherException "JSONDecodeError" "Expecting value") |}.

(** A constructor that takes every token. *)
Definition lenient_Bot : pyval -> outcome unit := fun _ => Return tt.

Fixpoint has_colon (s : string) : bool :=
  match s with
  | EmptyString => false
  | String c s' => Ascii.eqb c ":" || has_colon s'
  end.

(** A constructor that refuses a token without a colon, the empty one
    included, as the library's check of the token does. *)
Definition strict_Bot : pyval -> outcome unit :=
  fun token =>
    match token with
    | PStr s =>
        if has_colon s then Return tt
        else Raise (OtherException "InvalidToken" "Invalid token")
    | _ => Return tt
    end.

Definition unknown_status_text : string :=
  "Сбой в работе программы: Недокументированный статус домашней работы".

(** * Properties *)

(** ** The verdict table and [parse_status] *)

Lemma verdicts_other (status : string) :
  status <> "approved" -> status <> "reviewing" -> status <> "rejected" ->
  HOMEWORK_VERDICTS !! status = None.
Proof.
  intros Ha Hr Hj. unfold HOMEWORK_VERDICTS.
  rewrite !lookup_insert_ne by congruence.
  apply lookup_singleton_ne. congruence.
Qed.

Lemma verdicts_dom : dom HOMEWORK_VERDICTS = {[ "approved"; "reviewing"; "rejected" ]}.
Proof.
  unfold HOMEWORK_VERDICTS. rewrite !dom_insert_L, dom_singleton_L. set_solver.
Qed.

Lemma parse_status_lookup `{PyRuntime} (homework : gmap string pyval) (name status : string) :
  homework !! "homework_name" = Some (PStr name) ->
  homework !! "status" = Some (PStr status) ->
  parse_status (PDict homework) =
    match HOMEWORK_VERDICTS !! status with
    | Some verdict => Return (status_message name verdict)
    | None => Raise (ResponseError "Недокументированный статус домашней работы")
    end.
Proof.
  intros Hn Hs. unfold parse_status. simpl. rewrite Hn, Hs. simpl.
  destruct (HOMEWORK_VERDICTS !! status); reflexivity.
Qed.

(** C1: for a record (both fields strings) whose status is approved,
    reviewing or rejected, [parse_status] returns the template
    'Изменился статус проверки работы "{name}". {verdict}' filled with the
    record's name and the table's text for that status; the table has
    exactly these three keys; for a record with any other status it raises
    [ResponseError] ('Недокументированный статус домашней работы'). *)
Theorem parse_status_spec `{PyRuntime} (homework : gmap string pyval) (name status : string) :
  homework !! "homework_name" = Some (PStr name) ->
  homework !! "status" = Some (PStr status) ->
  (status = "approved" ->
   parse_status (PDict homework) =
     Return ("Изменился статус проверки работы " ++ dquote ++ name ++ dquote ++ ". "
             ++ "Работа проверена: ревьюеру всё понравилось. Ура!"))
  /\ (status = "reviewing" ->
      parse_status (PDict homework) =
        Return ("Изменился статус проверки работы " ++ dquote ++ name ++ dquote ++ ". "
                ++ "Работа взята на проверку ревьюером."))
  /\ (status = "rejected" ->
      parse_status (PDict homework) =
        Return ("Изменился статус проверки работы " ++ dquote ++ name ++ dquote ++ ". "
                ++ "Работа проверена: у ревьюера есть замечания."))
  /\ (status <> "approved" -> status <> "reviewing" -> status <> "rejected" ->
      parse_status (PDict homework) =
        Raise (ResponseError "Недокументированный статус домашней работы"))
  /\ size HOMEWORK_VERDICTS = 3.
Proof.
  intros Hn Hs. rewrite (parse_status_lookup homework name status Hn Hs).
  repeat split.
  - intros ->. reflexivity.
  - intros ->. reflexivity.
  - intros ->. reflexivity.
  - intros Ha Hr Hj. rewrite verdicts_other by assumption. reflexivity.
Qed.

Lemma parse_status_spec_witness :
  parse_status (H := sample_runtime) hw1 =
    Return ("Изменился статус проверки работы " ++ dquote ++ "hw1" ++ dquote ++ ". "
            ++ "Работа проверена: ревьюеру всё понравилось. Ура!").
Proof.
  refine (proj1 (parse_status_spec (H := sample_runtime)
                   {[ "homework_name" := PStr "hw1"; "status" := PStr "approved" ]}
                   "hw1" "approved" _ _) _); reflexivity.
Defined.

(** ** [check_response] *)

Lemma check_response_list (d : gmap string pyval) (l : list pyval) :
  d !! "homeworks" = Some (PList l) -> check_response (PDict d) = Return (PList l).
Proof. intros Hd. unfold check_response. simpl. rewrite Hd. reflexivity. Qed.

(** C2: [check_response] raises when the body is not a dict ([TypeError]),
    when the dict has no [homeworks] key ([ResponseError]) and when the
    value under [homeworks] is not a list ([ResponseError] for [None],
    [TypeError] otherwise); in the remaining case, a dict whose
    [homeworks] is a list, empty or not, it returns that list as it is. *)
Theorem check_response_spec (response : pyval) :
  ((forall d, response <> PDict d) ->
   check_response response = Raise (TypeError "Ответ API не является словарём"))
  /\ (forall d, response = PDict d -> d !! "homeworks" = None ->
      check_response response =
        Raise (ResponseError "Ошибочный ответ API. Отсутствует список работ"))
  /\ (forall d v, response = PDict d -> d !! "homeworks" = Some v ->
      (forall l, v <> PList l) ->
      check_response response =
        Raise (match v with
               | PNone => ResponseError "Ошибочный ответ API. Отсутствует список работ"
               | _ => TypeError "Ошибочный ответ API. Некорректный формат списка работ"
               end))
  /\ (forall d l, response = PDict d -> d !! "homeworks" = Some (PList l) ->
      check_response response = Return (PList l)).
Proof.
  repeat apply conj.
  - intros Hnd. destruct response; try reflexivity. exfalso. eapply Hnd. reflexivity.
  - intros d -> Hd. unfold check_response. simpl. rewrite Hd. reflexivity.
  - intros d v -> Hd Hnl. unfold check_response. simpl. rewrite Hd. simpl.
    destruct v; try reflexivity. exfalso. eapply Hnl. reflexivity.
  - intros d l -> Hd. apply check_response_list. exact Hd.
Qed.

Lemma check_response_spec_witness :
  check_response (PInt 7) = Raise (TypeError "Ответ API не является словарём")
  /\ check_response cursor_only_body =
       Raise (ResponseError "Ошибочный ответ API. Отсутствует список работ")
  /\ check_response (PDict {[ "homeworks" := PStr "none" ]}) =
       Raise (TypeError "Ошибочный ответ API. Некорректный формат списка работ")
  /\ check_response empty_body = Return (PList []).
Proof.
  repeat apply conj.
  - apply (proj1 (check_response_spec (PInt 7))). intros d. discriminate.
  - apply (proj1 (proj2 (check_response_spec cursor_only_body))
             {[ "current_date" := PInt 5 ]}); reflexivity.
  - apply (proj1 (proj2 (proj2 (check_response_spec (PDict {[ "homeworks" := PStr "none" ]}))))
             {[ "homeworks" := PStr "none" ]} (PStr "none"));
      [reflexivity | reflexivity | intros l; discriminate].
  - apply (proj2 (proj2 (proj2 (check_response_spec empty_body)))
             {[ "homeworks" := PList []; "current_date" := PInt 1700000600 ]} []);
      reflexivity.
Defined.

(** ** [check_tokens] *)

Lemma isinstance_str_spec (v : pyval) : Py.isinstance_str v = true <-> is_str v.
Proof.
  split.
  - destruct v; try discriminate. intros _. eexists. reflexivity.
  - intros [s ->]. reflexivity.
Qed.

Lemma isinstance_int_spec (v : pyval) : Py.isinstance_int v = true <-> is_int v.
Proof.
  split.
  - destruct v; try discriminate; intros _; [right | left]; eexists; reflexivity.
  - intros [[n ->] | [b ->]]; reflexivity.
Qed.

(** C3, as the code has it: [check_tokens] is true exactly when the API
    token and the bot token are strings and the chat identifier is a string
    or an [int]; an empty string passes. *)
Theorem check_tokens_spec (env : environ) :
  check_tokens env = true <->
  is_str (PRACTICUM_TOKEN env) /\ is_str (TELEGRAM_TOKEN env)
  /\ (is_str (TELEGRAM_CHAT_ID env) \/ is_int (TELEGRAM_CHAT_ID env)).
Proof.
  unfold check_tokens.
  rewrite !andb_true_iff, orb_true_iff, !isinstance_str_spec, isinstance_int_spec.
  tauto.
Qed.

(** C3, as the specification words it, fails where every variable is set
    to the empty string: [check_tokens] accepts credentials none of which
    is a non-empty string. *)
Lemma check_tokens_accepts_empty :
  check_tokens empty_env = true /\ ~ spec_credentials_present empty_env.
Proof.
  split; [reflexivity |].
  intros [[s [Hs Hne]] _].
  injection Hs as <-. apply Hne. reflexivity.
Qed.

(** ** [get_api_answer] *)

Lemma get_api_answer_run (w : world) (ts : pyval) (s : state) (r : response_obj) :
  requests_get w ts = Return r ->
  get_api_answer w ts s =
    (if ((400 <=? status_code r) && (status_code r <? 600))%Z
     then
       if is_Response r || has_url r
       then Raise (HTTPError (status_code r) (if is_Response r then reason r else PNone))
       else Raise (AttributeError
                     (Py.quote ++ class_name r ++ Py.quote
                      ++ " object has no attribute " ++ Py.quote ++ "url" ++ Py.quote))
     else json r,
     {| timestamp := timestamp s;
        last_sent_error := last_sent_error s;
        output := output s ++ [HttpGet ts] |}).
Proof.
  intros Hr. unfold get_api_answer, http_get, bind, emit, lift. simpl. rewrite Hr.
  unfold raise_for_status.
  destruct (is_Response r) eqn:Hreal; simpl; rewrite ?Hreal; simpl;
    destruct ((400 <=? status_code r) && (status_code r <? 600))%Z; simpl;
    try reflexivity.
  destruct (has_url r); reflexivity.
Qed.

Lemma get_api_answer_unreachable (w : world) (ts : pyval) (s : state) (e : exn) :
  requests_get w ts = Raise e ->
  get_api_answer w ts s =
    (Raise e,
     {| timestamp := timestamp s;
        last_sent_error := last_sent_error s;
        output := output s ++ [HttpGet ts] |}).
Proof.
  intros Hr. unfold get_api_answer, http_get, bind, emit, lift. simpl. rewrite Hr.
  reflexivity.
Qed.

(** C5 at a status the code lets through: the service answers 300 with a
    JSON body; [get_api_answer] raises nothing and returns the body. *)
Theorem get_api_answer_300 :
  get_api_answer (const_world (Return (http_response 300 empty_body)) (Return tt))
                 (PInt 0) (start 0) =
    (Return empty_body,
     {| timestamp := PInt 0; last_sent_error := ""; output := [HttpGet (PInt 0)] |}).
Proof. reflexivity. Qed.

(** What holds of C5 on the code: every 4xx and 5xx status of a real
    response raises [HTTPError]; every 2xx status hands back what
    [json()] gives. *)
Lemma get_api_answer_status (w : world) (ts : pyval) (s : state) (r : response_obj) :
  requests_get w ts = Return r ->
  ((400 <= status_code r < 600)%Z -> is_Response r = true ->
   exists why, fst (get_api_answer w ts s) = Raise (HTTPError (status_code r) why))
  /\ ((200 <= status_code r < 300)%Z -> fst (get_api_answer w ts s) = json r).
Proof.
  intros Hr. rewrite (get_api_answer_run w ts s r Hr). simpl. split.
  - intros Hc Hreal.
    replace ((400 <=? status_code r) && (status_code r <? 600))%Z with true
      by (symmetry; apply andb_true_iff; split; [apply Z.leb_le | apply Z.ltb_lt]; lia).
    rewrite Hreal. eexists. reflexivity.
  - intros Hc.
    replace ((400 <=? status_code r) && (status_code r <? 600))%Z with false
      by (symmetry; apply andb_false_iff; left; apply Z.leb_gt; lia).
    reflexivity.
Qed.

Lemma get_api_answer_lets_3xx_through : ~ spec_fetch_rejects_non_2xx.
Proof.
  intros Hspec.
  destruct (Hspec (const_world (Return (http_response 300 empty_body)) (Return tt))
                  (PInt 0) (start 0) (http_response 300 empty_body) eq_refl)
    as (why & s' & Hrun).
  - simpl. lia.
  - rewrite (get_api_answer_run
               (const_world (Return (http_response 300 empty_body)) (Return tt))
               (PInt 0) (start 0) (http_response 300 empty_body) eq_refl) in Hrun.
    discriminate.
Qed.

(** ** [send_message] *)

Lemma send_message_run (env : environ) (w : world) (message : string) (s : state) :
  send_message env w message s =
    (Return match bot_sendMessage w (TELEGRAM_CHAT_ID env) message with
            | Return _ => {| success := true; error := None |}
            | Raise e => {| success := false; error := Some e |}
            end,
     extend s [SendMessage (TELEGRAM_CHAT_ID env) message]).
Proof.
  unfold send_message, try_except, sendMessage, bind, emit, lift, ret, extend. simpl.
  destruct (bot_sendMessage w (TELEGRAM_CHAT_ID env) message); reflexivity.
Qed.

(** C8: whatever the bot's [sendMessage] does with the message, return or
    raise, [send_message] returns: [success] true and no error when the
    call returned, [success] false and the exception itself under [error]
    when it raised.  No exception leaves [send_message], and nothing but
    the one bot call is added to what the process has done. *)
Theorem send_message_never_raises (env : environ) (w : world) (message : string) (s : state) :
  exists r,
    send_message env w message s =
      (Return r,
       {| timestamp := timestamp s;
          last_sent_error := last_sent_error s;
          output := output s ++ [SendMessage (TELEGRAM_CHAT_ID env) message] |})
    /\ r = match bot_sendMessage w (TELEGRAM_CHAT_ID env) message with
           | Return _ => {| success := true; error := None |}
           | Raise e => {| success := false; error := Some e |}
           end.
Proof.
  eexists. split; [apply send_message_run | reflexivity].
Qed.

(** ** One turn of the loop *)

Section Turn.

Context `{PyRuntime}.
Variable env : environ.

Lemma check_response_Return (response homeworks : pyval) :
  check_response response = Return homeworks ->
  exists d l,
    response = PDict d /\ d !! "homeworks" = Some (PList l) /\ homeworks = PList l.
Proof.
  unfold check_response. destruct response; try discriminate. simpl.
  destruct (d !! "homeworks") as [v|] eqn:Hd; simpl; [| discriminate].
  destruct v; try discriminate. intros [= <-]. eauto.
Qed.

Lemma get_api_answer_state (w : world) (s : state) :
  snd (get_api_answer w (timestamp s) s) = requested s.
Proof.
  destruct (requests_get w (timestamp s)) as [r|e] eqn:Hr.
  - rewrite (get_api_answer_run w _ s r Hr). reflexivity.
  - rewrite (get_api_answer_unreachable w _ s e Hr). reflexivity.
Qed.

Lemma main_try_run (w : world) (s : state) :
  main_try env w s =
    match fst (get_api_answer w (timestamp s) s) with
    | Raise e => (Raise e, requested s)
    | Return response =>
        match check_response response with
        | Raise e => (Raise e, requested s)
        | Return (PList (homework :: _)) =>
            match parse_status homework with
            | Raise e => (Raise e, requested s)
            | Return msg =>
                (Return tt,
                 {| timestamp := match Py.get response "current_date" with
                                 | Return v => v
                                 | Raise _ => PNone
                                 end;
                    last_sent_error := last_sent_error s;
                    output := output s ++ [HttpGet (timestamp s);
                                           SendMessage (TELEGRAM_CHAT_ID env) msg;
                                           report env (sent env w msg)] |})
            end
        | Return _ =>
            (Return tt,
             {| timestamp := match Py.get response "current_date" with
                             | Return v => v
                             | Raise _ => PNone
                             end;
                last_sent_error := last_sent_error s;
                output := output s ++ [HttpGet (timestamp s)] |})
        end
    end.
Proof.
  pose proof (get_api_answer_state w s) as Hst.
  unfold main_try, bind at 1, get_timestamp. unfold bind at 1.
  destruct (get_api_answer w (timestamp s) s) as [[response|e] s1]; simpl in *;
    subst s1; [| reflexivity].
  unfold bind at 1, lift at 1.
  destruct (check_response response) as [homeworks|e] eqn:Hc; [| reflexivity].
  apply check_response_Return in Hc as (d & l & -> & Hd & ->).
  unfold bind at 1, lift at 1. simpl. rewrite Hd. simpl.
  destruct l as [|homework rest]; [reflexivity |].
  unfold bind at 1. unfold bind at 1, lift at 1. simpl.
  destruct (parse_status homework) as [msg|e]; [| reflexivity].
  unfold bind at 1, lift at 1. unfold bind at 1.
  rewrite send_message_run. fold (sent env w msg).
  unfold report, logger, emit, bind, lift, set_timestamp, extend, requested. simpl.
  destruct (success (sent env w msg)); simpl; rewrite <- !app_assoc; reflexivity.
Qed.

Lemma main_try_Raise (w : world) (s s' : state) (e : exn) :
  main_try env w s = (Raise e, s') -> s' = requested s.
Proof.
  rewrite main_try_run.
  destruct (fst (get_api_answer w (timestamp s) s)) as [response|e0];
    [| intros [= _ <-]; reflexivity].
  destruct (check_response response) as [homeworks|e0];
    [| intros [= _ <-]; reflexivity].
  destruct homeworks as [| | | | |l|]; try discriminate.
  destruct l as [|homework rest]; [discriminate |].
  destruct (parse_status homework) as [msg|e0]; [discriminate |].
  intros [= _ <-]. reflexivity.
Qed.

Lemma main_try_Return (w : world) (s s' : state) (u : unit) :
  main_try env w s = (Return u, s') ->
  last_sent_error s' = last_sent_error s
  /\ exists (d : gmap string pyval) (l : list pyval) (evs : list event),
       fst (get_api_answer w (timestamp s) s) = Return (PDict d)
       /\ d !! "homeworks" = Some (PList l)
       /\ timestamp s' = default PNone (d !! "current_date")
       /\ output s' = (output s ++ HttpGet (timestamp s) :: evs)%list.
Proof.
  rewrite main_try_run.
  destruct (fst (get_api_answer w (timestamp s) s)) as [response|e0]; [| discriminate].
  destruct (check_response response) as [homeworks|e0] eqn:Hc; [| discriminate].
  apply check_response_Return in Hc as (d & l & -> & Hd & ->).
  destruct l as [|homework rest].
  - intros [= _ <-]. simpl. split; [reflexivity |].
    exists d, [], []. auto.
  - destruct (parse_status homework) as [msg|e0]; [| discriminate].
    intros [= _ <-]. simpl. split; [reflexivity |].
    exists d, (homework :: rest). eexists.
    repeat split; first [assumption | reflexivity].
Qed.

(** The state in which the [except] block leaves a turn whose [try]
    block raised [e] and stopped in [s1]. *)
Lemma main_except_run (w : world) (e : exn) (s1 : state) :
  main_except env w e s1 =
    (Return tt,
     if String.eqb (failure_message e) (last_sent_error s1)
     then extend s1 [Log ERROR (failure_message e)]
     else {| timestamp := timestamp s1;
             last_sent_error := failure_message e;
             output := output s1 ++ [SendMessage (TELEGRAM_CHAT_ID env) (failure_message e);
                                     Log ERROR (failure_message e)] |}).
Proof.
  unfold main_except. unfold bind at 1, get_last_sent_error.
  destruct (String.eqb (failure_message e) (last_sent_error s1)); simpl.
  - reflexivity.
  - unfold bind at 1. unfold bind at 1. rewrite send_message_run.
    unfold set_last_sent_error, logger, emit, extend. simpl.
    rewrite <- app_assoc. reflexivity.
Qed.

Lemma main_iteration_run (w : world) (s : state) :
  main_iteration env w s =
    (Return tt,
     match main_try env w s with
     | (Return _, s1) => extend s1 [Sleep 600]
     | (Raise e, s1) => extend (snd (main_except env w e s1)) [Sleep 600]
     end).
Proof.
  unfold main_iteration, try_finally, try_except.
  destruct (main_try env w s) as [[u|e] s1]; simpl.
  - destruct u. reflexivity.
  - rewrite main_except_run. reflexivity.
Qed.

End Turn.

(** ** Reading a run *)

Lemma sends_app (evs evs' : list event) : sends (evs ++ evs') = (sends evs ++ sends evs')%list.
Proof.
  induction evs as [|ev evs IH]; [reflexivity |].
  destruct ev; simpl; rewrite IH; reflexivity.
Qed.

Lemma sleeps_app (evs evs' : list event) :
  sleeps (evs ++ evs') = (sleeps evs ++ sleeps evs')%list.
Proof.
  induction evs as [|ev evs IH]; [reflexivity |].
  destruct ev; simpl; rewrite IH; reflexivity.
Qed.

Lemma logged_app (lvl : level) (evs evs' : list event) :
  logged lvl (evs ++ evs') = (logged lvl evs ++ logged lvl evs')%list.
Proof.
  induction evs as [|ev evs IH]; [reflexivity |].
  destruct ev as [| |l text|]; simpl; rewrite ?IH; try reflexivity.
  destruct l, lvl; simpl; rewrite ?IH; reflexivity.
Qed.

Lemma requests_app (evs evs' : list event) :
  requests (evs ++ evs') = (requests evs ++ requests evs')%list.
Proof.
  induction evs as [|ev evs IH]; [reflexivity |].
  destruct ev; simpl; rewrite IH; reflexivity.
Qed.

Lemma since_output (s s' : state) (evs : list event) :
  output s' = (output s ++ evs)%list -> since s s' = evs.
Proof. intros Hout. unfold since. rewrite Hout. apply drop_app_length. Qed.

#[local] Arguments failure_message : simpl never.
#[local] Arguments String.eqb : simpl never.

Section Loop.

Context `{PyRuntime}.
Variable env : environ.

(** A turn whose [try] block raises: the request, the notification when
    the message is new, the log line and the pause. *)
Lemma main_iteration_fail (w : world) (s s1 : state) (e : exn) :
  main_try env w s = (Raise e, s1) ->
  snd (main_iteration env w s) =
    {| timestamp := timestamp s;
       last_sent_error := failure_message e;
       output := output s
                 ++ HttpGet (timestamp s)
                 :: (if String.eqb (failure_message e) (last_sent_error s) then []
                     else [SendMessage (TELEGRAM_CHAT_ID env) (failure_message e)])
                 ++ [Log ERROR (failure_message e); Sleep 600] |}.
Proof.
  intros Htry. rewrite main_iteration_run, Htry.
  rewrite (main_try_Raise env w s s1 e Htry), main_except_run.
  change (last_sent_error (requested s)) with (last_sent_error s).
  destruct (String.eqb (failure_message e) (last_sent_error s)) eqn:Heq;
    unfold extend, requested; cbn [snd timestamp last_sent_error output];
    rewrite <- ?app_assoc; [| reflexivity].
  apply String.eqb_eq in Heq. rewrite <- Heq. reflexivity.
Qed.

Lemma main_iteration_ok (w : world) (s s1 : state) (u : unit) :
  main_try env w s = (Return u, s1) ->
  snd (main_iteration env w s) = extend s1 [Sleep 600].
Proof. intros Htry. rewrite main_iteration_run, Htry. reflexivity. Qed.

Lemma after_cons (w : world) (ws : list world) (s : state) :
  after env (w :: ws) s = after env ws (snd (main_iteration env w s)).
Proof.
  unfold after. simpl. unfold bind. rewrite main_iteration_run. reflexivity.
Qed.

Lemma main_loop_Return (ws : list world) (s : state) :
  main_loop env ws s = (Return tt, after env ws s).
Proof.
  revert s. induction ws as [|w ws IH]; intros s; [reflexivity |].
  rewrite after_cons, <- IH. simpl. unfold bind. rewrite main_iteration_run. reflexivity.
Qed.

(** What one turn adds to the output: a request first, a pause of
    [RETRY_TIME] last, no other pause and no other request between. *)
Lemma main_iteration_shape (w : world) (s : state) :
  exists evs,
    output (snd (main_iteration env w s))
    = (output s ++ HttpGet (timestamp s) :: evs ++ [Sleep RETRY_TIME])%list
    /\ sleeps evs = [] /\ requests evs = [].
Proof.
  destruct (main_try env w s) as [[u|e] s1] eqn:Htry.
  - rewrite (main_iteration_ok w s s1 u Htry). destruct u.
    pose proof Htry as Hrun. rewrite main_try_run in Hrun.
    destruct (fst (get_api_answer w (timestamp s) s)) as [response|e0]; [| discriminate].
    destruct (check_response response) as [homeworks|e0]; [| discriminate].
    assert (Hplain :
      (Return (), {| timestamp := match Py.get response "current_date" with
                                  | Return v => v
                                  | Raise _ => PNone
                                  end;
                     last_sent_error := last_sent_error s;
                     output := output s ++ [HttpGet (timestamp s)] |})
      = (Return (), s1) ->
      exists evs,
        output (extend s1 [Sleep 600])
        = (output s ++ HttpGet (timestamp s) :: evs ++ [Sleep RETRY_TIME])%list
        /\ sleeps evs = [] /\ requests evs = []).
    { intros [= <-]. exists []. simpl. rewrite <- app_assoc. auto. }
    destruct homeworks as [| | | | |l|]; try (apply Hplain; exact Hrun).
    destruct l as [|homework rest]; [apply Hplain; exact Hrun |].
    destruct (parse_status homework) as [msg|e0]; [| discriminate].
    injection Hrun as <-.
    exists [SendMessage (TELEGRAM_CHAT_ID env) msg; report env (sent env w msg)].
    simpl. rewrite <- app_assoc. repeat split.
    + unfold report. destruct (success (sent env w msg)); reflexivity.
    + unfold report. destruct (success (sent env w msg)); reflexivity.
  - rewrite (main_iteration_fail w s s1 e Htry). cbn [output].
    exists ((if String.eqb (failure_message e) (last_sent_error s) then []
             else [SendMessage (TELEGRAM_CHAT_ID env) (failure_message e)])
            ++ [Log ERROR (failure_message e)])%list.
    rewrite <- app_assoc.
    destruct (String.eqb (failure_message e) (last_sent_error s)); repeat split.
Qed.

End Loop.

(** ** Failures and their notifications *)

Section Failures.

Context `{PyRuntime}.
Variable env : environ.

Lemma extend_nil (s : state) : extend s [] = s.
Proof. destruct s. unfold extend. simpl. rewrite app_nil_r. reflexivity. Qed.

Lemma extend_extend (s : state) (evs evs' : list event) :
  extend (extend s evs) evs' = extend s (evs ++ evs').
Proof. unfold extend. simpl. rewrite app_assoc. reflexivity. Qed.

(** A failing turn with a message that was not the last one sent. *)
Lemma fail_new (msg : string) (w : world) (s : state) :
  fails_with env msg w s -> msg <> last_sent_error s ->
  snd (main_iteration env w s) =
    {| timestamp := timestamp s;
       last_sent_error := msg;
       output := output s ++ [HttpGet (timestamp s);
                              SendMessage (TELEGRAM_CHAT_ID env) msg;
                              Log ERROR msg; Sleep 600] |}.
Proof.
  intros (e & s1 & Htry & <-) Hne.
  rewrite (main_iteration_fail env w s s1 e Htry).
  destruct (String.eqb_spec (failure_message e) (last_sent_error s)) as [Heq|_];
    [contradiction | reflexivity].
Qed.

(** A failing turn with the message that was sent last. *)
Lemma fail_again (msg : string) (w : world) (s : state) :
  fails_with env msg w s -> msg = last_sent_error s ->
  snd (main_iteration env w s) =
    extend s [HttpGet (timestamp s); Log ERROR msg; Sleep 600].
Proof.
  intros (e & s1 & Htry & <-) Heq.
  rewrite (main_iteration_fail env w s s1 e Htry).
  destruct (String.eqb_spec (failure_message e) (last_sent_error s)) as [_|Hne];
    [| contradiction].
  unfold extend. rewrite <- Heq. reflexivity.
Qed.

(** Turns that all fail with the message sent last: nothing reaches the
    bot, each turn logs the message and pauses. *)
Lemma all_fail_quiet (msg : string) (ws : list world) :
  forall s, last_sent_error s = msg -> all_fail_with env msg ws s ->
  exists evs,
    after env ws s = extend s evs
    /\ sends evs = []
    /\ logged ERROR evs = repeat msg (length ws)
    /\ sleeps evs = repeat 600%Z (length ws).
Proof.
  induction ws as [|w ws IH]; intros s Hlast Hall.
  - exists []. unfold after. simpl. rewrite extend_nil. auto.
  - destruct Hall as [Hfail Hall].
    rewrite after_cons.
    rewrite (fail_again msg w s Hfail (eq_sym Hlast)) in Hall |- *.
    destruct (IH _ (Hlast : last_sent_error (extend s _) = msg) Hall)
      as (evs & Hafter & Hsends & Hlog & Hsleep).
    rewrite Hafter, extend_extend. eexists. split; [reflexivity |].
    rewrite sends_app, logged_app, sleeps_app, Hsends, Hlog, Hsleep. auto.
Qed.

Lemma all_fail_run (msg : string) (w : world) (ws : list world) (s : state) :
  all_fail_with env msg (w :: ws) s ->
  exists evs,
    output (after env (w :: ws) s) = (output s ++ evs)%list
    /\ last_sent_error (after env (w :: ws) s) = msg
    /\ sends evs = (if String.eqb msg (last_sent_error s) then [] else [msg])
    /\ logged ERROR evs = repeat msg (S (length ws))
    /\ sleeps evs = repeat 600%Z (S (length ws)).
Proof.
  intros [Hfail Hall]. rewrite after_cons.
  destruct (String.eqb_spec msg (last_sent_error s)) as [Heq|Hne].
  - rewrite (fail_again msg w s Hfail Heq) in Hall |- *.
    destruct (all_fail_quiet msg ws _ (eq_sym Heq : last_sent_error (extend s _) = msg) Hall)
      as (evs & Hafter & Hsends & Hlog & Hsleep).
    rewrite Hafter, extend_extend. eexists. split; [reflexivity |].
    rewrite sends_app, logged_app, sleeps_app, Hsends, Hlog, Hsleep. auto.
  - rewrite (fail_new msg w s Hfail Hne) in Hall |- *.
    edestruct (all_fail_quiet msg ws) as (evs & Hafter & Hsends & Hlog & Hsleep);
      [| exact Hall |]; [reflexivity |].
    rewrite Hafter. unfold extend. cbn [output last_sent_error].
    rewrite <- app_assoc. eexists. split; [reflexivity |].
    rewrite sends_app, logged_app, sleeps_app, Hsends, Hlog, Hsleep. auto.
Qed.

(** C4: in a turn whose [try] block raises, the message
    'Сбой в работе программы: {error}' is logged once whatever was sent
    before; it goes to the bot, and [last_sent_error] takes its value,
    exactly when it differs from [last_sent_error].  Over any number of
    consecutive turns failing with one message text the bot is called at
    most once, in the first of them and only if the text is new, while
    every one of the turns logs the message. *)
Theorem failure_notified_once :
  (forall (w : world) (s s1 : state) (e : exn),
      main_try env w s = (Raise e, s1) ->
      logged ERROR (since s (snd (main_iteration env w s))) = [failure_message e]
      /\ (failure_message e <> last_sent_error s ->
          sends (since s (snd (main_iteration env w s))) = [failure_message e]
          /\ last_sent_error (snd (main_iteration env w s)) = failure_message e)
      /\ (failure_message e = last_sent_error s ->
          sends (since s (snd (main_iteration env w s))) = []
          /\ last_sent_error (snd (main_iteration env w s)) = last_sent_error s))
  /\ (forall (msg : string) (ws : list world) (s : state),
         all_fail_with env msg ws s ->
         sends (since s (after env ws s))
         = match ws with
           | [] => []
           | _ :: _ => if String.eqb msg (last_sent_error s) then [] else [msg]
           end
         /\ length (sends (since s (after env ws s))) <= 1
         /\ logged ERROR (since s (after env ws s)) = repeat msg (length ws)).
Proof.
  split.
  - intros w s s1 e Htry.
    assert (Hfail : fails_with env (failure_message e) w s) by (exists e, s1; auto).
    repeat apply conj.
    + destruct (String.eqb_spec (failure_message e) (last_sent_error s)) as [Heq|Hne].
      * rewrite (fail_again _ w s Hfail Heq).
        erewrite since_output by reflexivity. reflexivity.
      * rewrite (fail_new _ w s Hfail Hne).
        erewrite since_output by reflexivity. reflexivity.
    + intros Hne. rewrite (fail_new _ w s Hfail Hne).
      erewrite since_output by reflexivity. auto.
    + intros Heq. rewrite (fail_again _ w s Hfail Heq).
      erewrite since_output by reflexivity. auto.
  - intros msg ws s Hall. destruct ws as [|w ws].
    + unfold after, since. simpl. rewrite drop_all. auto.
    + destruct (all_fail_run msg w ws s Hall) as (evs & Hout & _ & Hsends & Hlog & _).
      rewrite (since_output _ _ evs Hout), Hsends, Hlog.
      repeat apply conj; try reflexivity.
      destruct (String.eqb msg (last_sent_error s)); simpl; lia.
Qed.

(** C10: a turn that fails with a message other than [last_sent_error]
    calls the bot once with it and stores it in [last_sent_error],
    whether the call returned or raised; in the turns that follow, as
    long as they fail with that message, the bot is not called again. *)
Theorem failed_notification_not_retried
    (msg : string) (w : world) (ws : list world) (s : state) :
  fails_with env msg w s ->
  msg <> last_sent_error s ->
  sends (since s (snd (main_iteration env w s))) = [msg]
  /\ last_sent_error (snd (main_iteration env w s)) = msg
  /\ (all_fail_with env msg ws (snd (main_iteration env w s)) ->
      sends (since (snd (main_iteration env w s))
                   (after env ws (snd (main_iteration env w s)))) = []).
Proof.
  intros Hfail Hne. rewrite (fail_new msg w s Hfail Hne).
  repeat apply conj.
  - erewrite since_output by reflexivity. reflexivity.
  - reflexivity.
  - intros Hall.
    edestruct (all_fail_quiet msg ws) as (evs & Hafter & Hsends & _);
      [| exact Hall |]; [reflexivity |].
    rewrite Hafter. erewrite since_output by reflexivity. exact Hsends.
Qed.

End Failures.

(** ** The cursor, the scenarios and the life of the process *)

Section Cursor.

Context `{PyRuntime}.
Variable env : environ.

Lemma scenario_check (rest : list pyval) :
  check_response (scenario_body rest) = Return (PList (hw1 :: rest)).
Proof.
  apply check_response_list. apply lookup_insert_eq.
Qed.

Lemma scenario_parse :
  parse_status hw1 =
    Return ("Изменился статус проверки работы " ++ dquote ++ "hw1" ++ dquote ++ ". "
            ++ "Работа проверена: ревьюеру всё понравилось. Ура!").
Proof. reflexivity. Qed.

Lemma scenario_cursor (rest : list pyval) :
  Py.get (scenario_body rest) "current_date" = Return (PInt 1700000000).
Proof.
  unfold scenario_body, Py.get.
  rewrite lookup_insert_ne by discriminate. rewrite lookup_singleton_eq. reflexivity.
Qed.

(** C6: a turn in which the fetched body is the scenario's, with any
    records [rest] after the first one, calls the bot exactly once, with
    'Изменился статус проверки работы "hw1". Работа проверена: ревьюеру
    всё понравилось. Ура!', and ends with [timestamp] 1700000000, from
    whatever [timestamp] it started; [rest] has no effect on the turn. *)
Theorem scenario_approved (w : world) (s : state) (rest : list pyval) :
  fst (get_api_answer w (timestamp s) s) = Return (scenario_body rest) ->
  main_iteration env w s =
    (Return tt,
     {| timestamp := PInt 1700000000;
        last_sent_error := last_sent_error s;
        output :=
          output s ++
          [HttpGet (timestamp s);
           SendMessage (TELEGRAM_CHAT_ID env)
             ("Изменился статус проверки работы " ++ dquote ++ "hw1" ++ dquote ++ ". "
              ++ "Работа проверена: ревьюеру всё понравилось. Ура!");
           report env
             (sent env w
                ("Изменился статус проверки работы " ++ dquote ++ "hw1" ++ dquote ++ ". "
                 ++ "Работа проверена: ревьюеру всё понравилось. Ура!"));
           Sleep 600] |})
  /\ sends (since s (snd (main_iteration env w s)))
     = ["Изменился статус проверки работы " ++ dquote ++ "hw1" ++ dquote ++ ". "
        ++ "Работа проверена: ревьюеру всё понравилось. Ура!"]
  /\ timestamp (snd (main_iteration env w s)) = PInt 1700000000.
Proof.
  intros Hfetch.
  assert (Hrun : main_iteration env w s = (Return tt,
     {| timestamp := PInt 1700000000;
        last_sent_error := last_sent_error s;
        output :=
          output s ++
          [HttpGet (timestamp s);
           SendMessage (TELEGRAM_CHAT_ID env)
             ("Изменился статус проверки работы " ++ dquote ++ "hw1" ++ dquote ++ ". "
              ++ "Работа проверена: ревьюеру всё понравилось. Ура!");
           report env
             (sent env w
                ("Изменился статус проверки работы " ++ dquote ++ "hw1" ++ dquote ++ ". "
                 ++ "Работа проверена: ревьюеру всё понравилось. Ура!"));
           Sleep 600] |})).
  { rewrite main_iteration_run, main_try_run, Hfetch, scenario_check, scenario_parse,
      scenario_cursor.
    unfold extend. cbn [timestamp last_sent_error output].
    rewrite <- app_assoc. reflexivity. }
  rewrite Hrun. repeat apply conj; [reflexivity | | reflexivity].
  erewrite since_output by reflexivity.
  unfold report. destruct (success _); reflexivity.
Qed.


Lemma sleeps_after (ws : list world) :
  forall s, exists evs,
    output (after env ws s) = (output s ++ evs)%list
    /\ sleeps evs = repeat RETRY_TIME (length ws)
    /\ length (requests evs) = length ws.
Proof.
  induction ws as [|w ws IH]; intros s.
  - exists []. unfold after. simpl. rewrite app_nil_r. auto.
  - rewrite after_cons.
    destruct (main_iteration_shape env w s) as (evs & Hout & Hsl & Hrq).
    destruct (IH (snd (main_iteration env w s))) as (evs' & Hout' & Hsl' & Hrq').
    rewrite Hout', Hout, <- app_assoc. eexists. split; [reflexivity |].
    simpl. rewrite !sleeps_app, !requests_app, Hsl, Hsl', Hrq, length_app, Hrq'.
    simpl. auto.
Qed.

(** C7, as the code has it: a turn of the loop never raises, whatever
    the service and the bot do: it returns, and what it adds to the output
    ends with the one pause of the turn, 600 seconds.  So the loop runs
    every turn it is given, with one pause of 600 seconds per turn.
    Before the loop [main] stops in two ways.  When [check_tokens] is
    false it logs one critical line and exits with code -1, before the
    constructor of the bot is called and before any request.  When
    [check_tokens] is true and the constructor of the bot raises, the
    exception is not caught and ends the run, again before any request.
    When [check_tokens] is true and the constructor returns, [main]
    neither exits nor lets an exception out, and makes one request per
    turn. *)
Theorem main_stops_only_at_startup :
  (forall (w : world) (s : state),
      fst (main_iteration env w s) = Return tt
      /\ exists evs,
           output (snd (main_iteration env w s))
           = (output s ++ evs ++ [Sleep 600])%list
           /\ sleeps evs = [])
  /\ (forall (ws : list world) (s : state),
         fst (main_loop env ws s) = Return tt
         /\ sleeps (since s (snd (main_loop env ws s))) = repeat 600%Z (length ws))
  /\ (check_tokens env = true ->
      forall (Bot : pyval -> outcome unit) (now : Z) (ws : list world),
        (forall u, Bot (TELEGRAM_TOKEN env) = Return u ->
           fst (main env Bot now ws) = Looping (after env ws (start now))
           /\ sleeps (snd (main env Bot now ws)) = repeat 600%Z (length ws)
           /\ length (requests (snd (main env Bot now ws))) = length ws)
        /\ (forall e, Bot (TELEGRAM_TOKEN env) = Raise e ->
            main env Bot now ws = (Uncaught e, [])))
  /\ (check_tokens env = false ->
      forall (Bot : pyval -> outcome unit) (now : Z) (ws : list world),
        main env Bot now ws =
          (Exited (-1),
           [Log CRITICAL ("Ошибка при загрузке переменных окружения. "
                          ++ "Программа принудительно остановлена")])).
Proof.
  repeat apply conj.
  - intros w s. split; [rewrite main_iteration_run; reflexivity |].
    destruct (main_iteration_shape env w s) as (evs & Hout & Hsl & _).
    exists (HttpGet (timestamp s) :: evs). split; [exact Hout | exact Hsl].
  - intros ws s. rewrite main_loop_Return. split; [reflexivity |].
    destruct (sleeps_after ws s) as (evs & Hout & Hsl & _).
    cbn [snd]. rewrite (since_output _ _ evs Hout). exact Hsl.
  - intros Hok Bot now ws. split.
    + intros u HBot. unfold main. rewrite Hok, HBot. cbn [negb].
      fold (start now). rewrite main_loop_Return.
      destruct (sleeps_after ws (start now)) as (evs & Hout & Hsl & Hrq).
      cbn [fst snd]. rewrite Hout. simpl. auto.
    + intros e HBot. unfold main. rewrite Hok, HBot. reflexivity.
  - intros Hno Bot now ws. unfold main. rewrite Hno. reflexivity.
Qed.

End Cursor.

(** ** The theorems at the sample data *)

Lemma check_tokens_spec_witness : check_tokens sample_env = true.
Proof.
  apply (proj2 (check_tokens_spec sample_env)).
  repeat split; [eexists; reflexivity | eexists; reflexivity | left; eexists; reflexivity].
Defined.

Lemma server_error_fails (s : state) :
  fails_with (H := sample_runtime) sample_env server_error_text server_error_world s.
Proof.
  exists (HTTPError 500 PNone), (requested s). split; reflexivity.
Qed.

Lemma failure_notified_once_witness :
  sends (since (start 0)
           (after (H := sample_runtime) sample_env
              [server_error_world; server_error_world; server_error_world] (start 0)))
  = [server_error_text]
  /\ logged ERROR
       (since (start 0)
          (after (H := sample_runtime) sample_env
             [server_error_world; server_error_world; server_error_world] (start 0)))
     = [server_error_text; server_error_text; server_error_text].
Proof.
  destruct (proj2 (@failure_notified_once sample_runtime sample_env) server_error_text
              [server_error_world; server_error_world; server_error_world] (start 0))
    as (Hsends & _ & Hlog).
  - split; [| split; [| split; [| exact I]]]; apply server_error_fails.
  - split; [exact Hsends | exact Hlog].
Defined.

Lemma failed_notification_not_retried_witness :
  success (sent sample_env server_error_world server_error_text) = false
  /\ last_sent_error
       (snd (main_iteration (H := sample_runtime) sample_env server_error_world (start 0)))
     = server_error_text
  /\ sends
       (since
          (snd (main_iteration (H := sample_runtime) sample_env server_error_world (start 0)))
          (after (H := sample_runtime) sample_env [server_error_world; server_error_world]
             (snd (main_iteration (H := sample_runtime) sample_env server_error_world
                     (start 0)))))
     = [].
Proof.
  destruct (@failed_notification_not_retried sample_runtime sample_env server_error_text
              server_error_world [server_error_world; server_error_world] (start 0))
    as (_ & Hlast & Hquiet).
  - apply server_error_fails.
  - discriminate.
  - split; [reflexivity | split; [exact Hlast |]].
    apply Hquiet. split; [| split; [| exact I]]; apply server_error_fails.
Defined.

Lemma scenario_approved_witness :
  sends (since (start 1699999400)
           (snd (main_iteration (H := sample_runtime) sample_env approved_world
                   (start 1699999400))))
  = ["Изменился статус проверки работы " ++ dquote ++ "hw1" ++ dquote ++ ". "
     ++ "Работа проверена: ревьюеру всё понравилось. Ура!"]
  /\ timestamp (snd (main_iteration (H := sample_runtime) sample_env approved_world
                       (start 1699999400)))
     = PInt 1700000000.
Proof.
  apply (proj2 (@scenario_approved sample_runtime sample_env approved_world
                  (start 1699999400) [] eq_refl)).
Defined.



Lemma main_stops_only_at_startup_witness :
  fst (main (H := sample_runtime) sample_env lenient_Bot 0
         [approved_world; server_error_world; missing_list_world])
  = Looping (after (H := sample_runtime) sample_env
               [approved_world; server_error_world; missing_list_world] (start 0))
  /\ main (H := sample_runtime) sample_env strict_Bot 0
       [approved_world; server_error_world; missing_list_world]
     = (Uncaught (OtherException "InvalidToken" "Invalid token"), [])
  /\ main (H := sample_runtime) no_chat_env lenient_Bot 0
       [approved_world; server_error_world; missing_list_world]
     = (Exited (-1),
        [Log CRITICAL ("Ошибка при загрузке переменных окружения. "
                       ++ "Программа принудительно остановлена")]).
Proof.
  split; [| split].
  - apply (proj1 (proj1 (proj1 (proj2 (proj2 (@main_stops_only_at_startup sample_runtime
                                                 sample_env)))
                           eq_refl lenient_Bot 0%Z
                           [approved_world; server_error_world; missing_list_world])
                    tt eq_refl)).
  - apply (proj2 (proj1 (proj2 (proj2 (@main_stops_only_at_startup sample_runtime
                                          sample_env)))
                    eq_refl strict_Bot 0%Z
                    [approved_world; server_error_world; missing_list_world])
             (OtherException "InvalidToken" "Invalid token") eq_refl).
  - apply (proj2 (proj2 (proj2 (@main_stops_only_at_startup sample_runtime no_chat_env)))
             eq_refl lenient_Bot 0%Z
             [approved_world; server_error_world; missing_list_world]).
Defined.

(** C7, as the specification words it, fails where all three variables
    hold strings and the constructor of the bot refuses the token:
    [check_tokens] passes, the constructor raises outside the [try], and
    the run ends before the loop although no credential is missing or of
    the wrong type. *)
Lemma startup_stops_on_refused_token :
  ~ spec_only_credentials_stop (H := sample_runtime).
Proof.
  intros Hspec.
  apply (Hspec sample_env strict_Bot 0%Z []).
  - intros s. discriminate.
  - repeat split; [eexists; reflexivity | eexists; reflexivity | left; eexists; reflexivity].
Qed.

(** * Further properties of the code *)

(** ** [parse_status] on records that are not well formed *)

Lemma verdicts_known (status verdict : string) :
  HOMEWORK_VERDICTS !! status = Some verdict ->
  status = "approved" \/ status = "reviewing" \/ status = "rejected".
Proof.
  intros Hv.
  destruct (decide (status = "approved")) as [|Ha]; [auto |].
  destruct (decide (status = "reviewing")) as [|Hr]; [auto |].
  destruct (decide (status = "rejected")) as [|Hj]; [auto |].
  rewrite (verdicts_other status Ha Hr Hj) in Hv. discriminate.
Qed.

(** X1: [parse_status] reads [homework_name] before [status]: a record
    without [homework_name] raises [KeyError('homework_name')] whatever
    else it holds, and a record with a name but without [status] raises
    [KeyError('status')]. *)
Theorem parse_status_missing_key `{PyRuntime} (d : gmap string pyval) :
  (d !! "homework_name" = None ->
   parse_status (PDict d) = Raise (KeyError (PStr "homework_name")))
  /\ (forall name, d !! "homework_name" = Some name -> d !! "status" = None ->
      parse_status (PDict d) = Raise (KeyError (PStr "status"))).
Proof.
  split.
  - intros Hn. unfold parse_status. simpl. rewrite Hn. reflexivity.
  - intros name Hn Hs. unfold parse_status. simpl. rewrite Hn, Hs. reflexivity.
Qed.

Lemma parse_status_missing_key_witness :
  parse_status (H := sample_runtime) (PDict {[ "status" := PStr "approved" ]})
  = Raise (KeyError (PStr "homework_name"))
  /\ parse_status (H := sample_runtime) (PDict {[ "homework_name" := PStr "hw1" ]})
     = Raise (KeyError (PStr "status")).
Proof.
  split.
  - apply (proj1 (parse_status_missing_key (H := sample_runtime)
                    {[ "status" := PStr "approved" ]})).
    reflexivity.
  - apply (proj2 (parse_status_missing_key (H := sample_runtime)
                    {[ "homework_name" := PStr "hw1" ]}) (PStr "hw1")); reflexivity.
Defined.

(** X2: [parse_status] returns a message only for a dict that has both
    keys and whose status is one of the three strings of the table, and
    the message is then the template filled with the formatted name and
    the table's text. *)
Theorem parse_status_Return `{PyRuntime} (homework : pyval) (msg : string) :
  parse_status homework = Return msg ->
  exists (d : gmap string pyval) (name : pyval) (status verdict : string),
    homework = PDict d
    /\ d !! "homework_name" = Some name
    /\ d !! "status" = Some (PStr status)
    /\ (status = "approved" \/ status = "reviewing" \/ status = "rejected")
    /\ HOMEWORK_VERDICTS !! status = Some verdict
    /\ msg = status_message (Py.format name) verdict.
Proof.
  unfold parse_status. destruct homework as [| | | | | |d]; try discriminate. simpl.
  destruct (d !! "homework_name") as [name|] eqn:Hn; [| discriminate].
  destruct (d !! "status") as [v|] eqn:Hs; [| discriminate].
  destruct v as [| | | |status| |]; simpl; try discriminate.
  destruct (HOMEWORK_VERDICTS !! status) as [verdict|] eqn:Hv; [| discriminate].
  intros [= <-]. exists d, name, status, verdict.
  repeat apply conj; try reflexivity; try assumption.
  exact (verdicts_known status verdict Hv).
Qed.

Lemma parse_status_Return_witness :
  exists (d : gmap string pyval) (name : pyval) (status verdict : string),
    hw1 = PDict d
    /\ d !! "homework_name" = Some name
    /\ d !! "status" = Some (PStr status)
    /\ (status = "approved" \/ status = "reviewing" \/ status = "rejected")
    /\ HOMEWORK_VERDICTS !! status = Some verdict
    /\ status_message "hw1" "Работа проверена: ревьюеру всё понравилось. Ура!"
       = status_message (Py.format (H := sample_runtime) name) verdict.
Proof.
  apply (parse_status_Return (H := sample_runtime) hw1
           (status_message "hw1" "Работа проверена: ревьюеру всё понравилось. Ура!")).
  reflexivity.
Defined.

(** X3: a record whose status is not a string never gets a message: a
    list or a dict under [status] makes the lookup in the table raise
    [TypeError] (unhashable), and any other value, [None] included, is
    reported like an unknown status, with [ResponseError]. *)
Theorem parse_status_status_not_str `{PyRuntime}
    (d : gmap string pyval) (name status : pyval) :
  d !! "homework_name" = Some name ->
  d !! "status" = Some status ->
  (forall s, status <> PStr s) ->
  parse_status (PDict d) =
    Raise (match status with
           | PList _ | PDict _ =>
               TypeError ("unhashable type: " ++ Py.quote ++ Py.type_name status ++ Py.quote)
           | _ => ResponseError "Недокументированный статус домашней работы"
           end).
Proof.
  intros Hn Hs Hnot. unfold parse_status. simpl. rewrite Hn, Hs.
  destruct status; try reflexivity. exfalso. eapply Hnot. reflexivity.
Qed.

Lemma parse_status_status_not_str_witness :
  parse_status (H := sample_runtime)
    (PDict {[ "homework_name" := PStr "hw1"; "status" := PList [PStr "approved"] ]})
  = Raise (TypeError ("unhashable type: " ++ Py.quote ++ "list" ++ Py.quote))
  /\ parse_status (H := sample_runtime)
       (PDict {[ "homework_name" := PStr "hw1"; "status" := PNone ]})
     = Raise (ResponseError "Недокументированный статус домашней работы").
Proof.
  split.
  - apply (parse_status_status_not_str (H := sample_runtime)
             {[ "homework_name" := PStr "hw1"; "status" := PList [PStr "approved"] ]}
             (PStr "hw1") (PList [PStr "approved"]));
      [reflexivity | reflexivity | intros s; discriminate].
  - apply (parse_status_status_not_str (H := sample_runtime)
             {[ "homework_name" := PStr "hw1"; "status" := PNone ]}
             (PStr "hw1") PNone);
      [reflexivity | reflexivity | intros s; discriminate].
Defined.

(** ** [get_api_answer]: what gets through and what it leaves behind *)

(** X4: [get_api_answer] catches nothing: an exception of [requests.get]
    leaves it as it is, and when the status passes, so does an exception
    of [json()].  In every case it has made exactly one request, with the
    given [from_date], and touched neither loop variable. *)
Theorem get_api_answer_propagates (w : world) (ts : pyval) (s : state) :
  (forall e, requests_get w ts = Raise e -> fst (get_api_answer w ts s) = Raise e)
  /\ (forall r e,
         requests_get w ts = Return r ->
         ~ (400 <= status_code r < 600)%Z ->
         json r = Raise e ->
         fst (get_api_answer w ts s) = Raise e)
  /\ snd (get_api_answer w ts s) = extend s [HttpGet ts].
Proof.
  repeat apply conj.
  - intros e Hr. rewrite (get_api_answer_unreachable w ts s e Hr). reflexivity.
  - intros r e Hr Hst Hj. rewrite (get_api_answer_run w ts s r Hr). simpl.
    replace ((400 <=? status_code r) && (status_code r <? 600))%Z with false; [exact Hj |].
    symmetry. apply andb_false_iff.
    destruct (Z.leb_spec 400 (status_code r)); [| auto].
    right. apply Z.ltb_ge. lia.
  - destruct (requests_get w ts) as [r|e] eqn:Hr.
    + rewrite (get_api_answer_run w ts s r Hr). reflexivity.
    + rewrite (get_api_answer_unreachable w ts s e Hr). reflexivity.
Qed.

Lemma get_api_answer_propagates_witness :
  fst (get_api_answer (const_world (Raise transport_down) (Return tt)) (PInt 0) (start 0))
  = Raise transport_down
  /\ fst (get_api_answer (const_world (Return not_json_200) (Return tt)) (PInt 0) (start 0))
     = Raise (OtherException "JSONDecodeError" "Expecting value").
Proof.
  split.
  - apply (proj1 (get_api_answer_propagates
                    (const_world (Raise transport_down) (Return tt)) (PInt 0) (start 0))).
    reflexivity.
  - apply (proj1 (proj2 (get_api_answer_propagates
                           (const_world (Return not_json_200) (Return tt)) (PInt 0) (start 0)))
             not_json_200); [reflexivity | simpl; lia | reflexivity].
Defined.

(** X5: on a 4xx or 5xx answer [get_api_answer] raises before it looks
    at the body.  For a real [Response] it raises [HTTPError] with the
    status and the reason of the answer.  For a stand-in the function
    overwrites [reason] with [None] and runs the borrowed method, which
    also reads [url]: a stand-in that has [url] gives [HTTPError] with
    the status and [None], one that has not gives [AttributeError]. *)
Theorem get_api_answer_http_error (w : world) (ts : pyval) (s : state) (r : response_obj) :
  requests_get w ts = Return r ->
  (400 <= status_code r < 600)%Z ->
  (is_Response r = true ->
   fst (get_api_answer w ts s) = Raise (HTTPError (status_code r) (reason r)))
  /\ (is_Response r = false -> has_url r = true ->
      fst (get_api_answer w ts s) = Raise (HTTPError (status_code r) PNone))
  /\ (is_Response r = false -> has_url r = false ->
      fst (get_api_answer w ts s)
      = Raise (AttributeError
                 (Py.quote ++ class_name r ++ Py.quote
                  ++ " object has no attribute " ++ Py.quote ++ "url" ++ Py.quote))).
Proof.
  intros Hr Hst. rewrite (get_api_answer_run w ts s r Hr). cbn [fst].
  replace ((400 <=? status_code r) && (status_code r <? 600))%Z with true
    by (symmetry; apply andb_true_iff; split; [apply Z.leb_le | apply Z.ltb_lt]; lia).
  repeat apply conj.
  - intros ->. reflexivity.
  - intros -> ->. reflexivity.
  - intros -> ->. reflexivity.
Qed.

Lemma get_api_answer_http_error_witness :
  fst (get_api_answer (const_world (Return not_found_404) (Return tt)) (PInt 0) (start 0))
  = Raise (HTTPError 404 (PStr "Not Found"))
  /\ fst (get_api_answer (const_world (Return stand_in_503_url) (Return tt)) (PInt 0)
            (start 0))
     = Raise (HTTPError 503 PNone)
  /\ fst (get_api_answer (const_world (Return stand_in_503) (Return tt)) (PInt 0) (start 0))
     = Raise (AttributeError
                (Py.quote ++ "MockResponse" ++ Py.quote
                 ++ " object has no attribute " ++ Py.quote ++ "url" ++ Py.quote)).
Proof.
  split; [| split].
  - refine (proj1 (get_api_answer_http_error
                     (const_world (Return not_found_404) (Return tt))
                     (PInt 0) (start 0) not_found_404 eq_refl _) eq_refl).
    simpl. lia.
  - refine (proj1 (proj2 (get_api_answer_http_error
                            (const_world (Return stand_in_503_url) (Return tt))
                            (PInt 0) (start 0) stand_in_503_url eq_refl _)) eq_refl eq_refl).
    simpl. lia.
  - refine (proj2 (proj2 (get_api_answer_http_error
                            (const_world (Return stand_in_503) (Return tt))
                            (PInt 0) (start 0) stand_in_503 eq_refl _)) eq_refl eq_refl).
    simpl. lia.
Defined.

(** ** Turns of the loop, by what was fetched *)

Section Turns.

Context `{PyRuntime}.
Variable env : environ.

Lemma main_try_list (w : world) (s : state) (d : gmap string pyval) (l : list pyval) :
  fst (get_api_answer w (timestamp s) s) = Return (PDict d) ->
  d !! "homeworks" = Some (PList l) ->
  main_try env w s =
    match l with
    | [] =>
        (Return tt,
         {| timestamp := default PNone (d !! "current_date");
            last_sent_error := last_sent_error s;
            output := output s ++ [HttpGet (timestamp s)] |})
    | homework :: _ =>
        match parse_status homework with
        | Raise e => (Raise e, requested s)
        | Return msg =>
            (Return tt,
             {| timestamp := default PNone (d !! "current_date");
                last_sent_error := last_sent_error s;
                output := output s ++ [HttpGet (timestamp s);
                                       SendMessage (TELEGRAM_CHAT_ID env) msg;
                                       report env (sent env w msg)] |})
        end
    end.
Proof.
  intros Hfetch Hd.
  rewrite main_try_run, Hfetch, (check_response_list d l Hd).
  destruct l; reflexivity.
Qed.

(** Each turn makes one request, with the [timestamp] it starts from. *)
Lemma requests_turn (w : world) (s : state) :
  requests (since s (snd (main_iteration env w s))) = [timestamp s].
Proof.
  destruct (main_iteration_shape env w s) as (evs & Hout & _ & Hrq).
  rewrite (since_output _ _ _ Hout). simpl.
  rewrite requests_app, Hrq. reflexivity.
Qed.

(** X6: when the fetched body holds an empty list of homeworks, the turn
    calls no bot and logs nothing: it makes its request, sets [timestamp]
    to the body's [current_date] ([None] if the body has none), leaves
    [last_sent_error] alone and pauses. *)
Theorem empty_list_turn (w : world) (s : state) (d : gmap string pyval) :
  fst (get_api_answer w (timestamp s) s) = Return (PDict d) ->
  d !! "homeworks" = Some (PList []) ->
  main_iteration env w s =
    (Return tt,
     {| timestamp := default PNone (d !! "current_date");
        last_sent_error := last_sent_error s;
        output := output s ++ [HttpGet (timestamp s); Sleep 600] |}).
Proof.
  intros Hfetch Hd.
  rewrite main_iteration_run, (main_try_list w s d [] Hfetch Hd).
  unfold extend. cbn [timestamp last_sent_error output].
  rewrite <- app_assoc. reflexivity.
Qed.


(** X8: when the first record of the fetched list does not parse (an
    unknown status, a missing key), the turn sends no status message and
    leaves [timestamp] where it was, whatever [current_date] the body
    carried; the error goes to the bot if its text is new, and the next
    turn asks the service for the same [from_date] again. *)
Theorem bad_record_turn (w w' : world) (s : state) (d : gmap string pyval)
    (homework : pyval) (rest : list pyval) (e : exn) :
  fst (get_api_answer w (timestamp s) s) = Return (PDict d) ->
  d !! "homeworks" = Some (PList (homework :: rest)) ->
  parse_status homework = Raise e ->
  timestamp (snd (main_iteration env w s)) = timestamp s
  /\ sends (since s (snd (main_iteration env w s)))
     = (if String.eqb (failure_message e) (last_sent_error s) then []
        else [failure_message e])
  /\ requests (since (snd (main_iteration env w s))
                 (snd (main_iteration env w' (snd (main_iteration env w s)))))
     = [timestamp s].
Proof.
  intros Hfetch Hd Hparse.
  assert (Htry : main_try env w s = (Raise e, requested s)).
  { rewrite (main_try_list w s d _ Hfetch Hd), Hparse. reflexivity. }
  rewrite requests_turn.
  rewrite (main_iteration_fail env w s _ e Htry). cbn [timestamp].
  repeat apply conj; try reflexivity.
  erewrite since_output by reflexivity.
  destruct (String.eqb (failure_message e) (last_sent_error s)); reflexivity.
Qed.

(** X9: no turn calls the bot twice: a turn hands it a status message, or
    an error message, or nothing. *)
Theorem one_bot_call_per_turn (w : world) (s : state) :
  length (sends (since s (snd (main_iteration env w s)))) <= 1.
Proof.
  destruct (main_try env w s) as [[u|e] s1] eqn:Htry.
  - rewrite (main_iteration_ok env w s s1 u Htry).
    pose proof Htry as Hrun. rewrite main_try_run in Hrun.
    destruct (fst (get_api_answer w (timestamp s) s)) as [response|e0]; [| discriminate].
    destruct (check_response response) as [homeworks|e0]; [| discriminate].
    assert (Hplain :
      forall ts, (Return (), {| timestamp := ts;
                               last_sent_error := last_sent_error s;
                               output := output s ++ [HttpGet (timestamp s)] |})
                 = (Return u, s1) ->
      length (sends (since s (extend s1 [Sleep 600]))) <= 1).
    { intros ts [= _ <-]. erewrite since_output; [| unfold extend; cbn [output];
        rewrite <- app_assoc; reflexivity]. simpl. lia. }
    destruct homeworks as [| | | | |l|]; try (eapply Hplain; exact Hrun).
    destruct l as [|homework rest]; [eapply Hplain; exact Hrun |].
    destruct (parse_status homework) as [msg|e0]; [| discriminate].
    injection Hrun as _ <-.
    erewrite since_output; [| unfold extend; cbn [output]; rewrite <- app_assoc; reflexivity].
    unfold report. destruct (success (sent env w msg)); simpl; lia.
  - rewrite (main_iteration_fail env w s s1 e Htry).
    erewrite since_output by reflexivity.
    destruct (String.eqb (failure_message e) (last_sent_error s)); simpl; lia.
Qed.

End Turns.

(** ** Runs of several turns *)

Section Chains.

Context `{PyRuntime}.
Variable env : environ.

Lemma output_after (ws : list world) (s : state) :
  exists evs, output (after env ws s) = (output s ++ evs)%list.
Proof.
  destruct (sleeps_after env ws s) as (evs & Hout & _). exists evs. exact Hout.
Qed.

Lemma output_turn (w : world) (s : state) :
  exists evs, output (snd (main_iteration env w s)) = (output s ++ evs)%list.
Proof.
  destruct (main_iteration_shape env w s) as (evs & Hout & _).
  eexists. exact Hout.
Qed.

Lemma since_after_cons (w : world) (ws : list world) (s : state) :
  since s (after env (w :: ws) s)
  = (since s (snd (main_iteration env w s))
     ++ since (snd (main_iteration env w s)) (after env ws (snd (main_iteration env w s))))%list.
Proof.
  rewrite after_cons.
  destruct (output_turn w s) as (evs & Hout).
  destruct (output_after ws (snd (main_iteration env w s))) as (evs' & Hout').
  rewrite (since_output _ _ _ Hout), (since_output _ _ _ Hout').
  apply since_output. rewrite Hout', Hout, <- app_assoc. reflexivity.
Qed.

Lemma requests_after (ws : list world) :
  forall s, requests (since s (after env ws s)) = cursors env ws s.
Proof.
  induction ws as [|w ws IH]; intros s.
  - unfold after, since. simpl. rewrite drop_all. reflexivity.
  - rewrite since_after_cons, requests_app, requests_turn, IH. reflexivity.
Qed.

(** X10: the requests of a run are chained through [timestamp]: every
    turn makes exactly one request, whose [from_date] is the [timestamp]
    the turn before left.  So after a turn whose [try] block returned the
    next request carries the [current_date] of the body just fetched
    ([None] if it had none), and after a turn whose [try] block raised it
    repeats the [from_date] of that turn.  When [check_tokens] passes and
    the constructor of the bot returns, the first request of [main]
    carries the time at which [main] started; when the constructor
    raises, [main] makes no request. *)
Theorem request_chain :
  (forall (ws : list world) (s : state),
      requests (since s (after env ws s)) = cursors env ws s)
  /\ (forall (w w' : world) (s s1 : state) (u : unit),
         main_try env w s = (Return u, s1) ->
         exists d : gmap string pyval,
           fst (get_api_answer w (timestamp s) s) = Return (PDict d)
           /\ requests (since s (after env [w; w'] s))
              = [timestamp s; default PNone (d !! "current_date")])
  /\ (forall (w w' : world) (s s1 : state) (e : exn),
         main_try env w s = (Raise e, s1) ->
         requests (since s (after env [w; w'] s)) = [timestamp s; timestamp s])
  /\ (check_tokens env = true ->
      forall (Bot : pyval -> outcome unit) (now : Z) (w : world) (ws : list world) (u : unit),
        Bot (TELEGRAM_TOKEN env) = Return u ->
        requests (snd (main env Bot now (w :: ws)))
        = PInt now :: cursors env ws (snd (main_iteration env w (start now))))
  /\ (forall (Bot : pyval -> outcome unit) (now : Z) (ws : list world) (e : exn),
         Bot (TELEGRAM_TOKEN env) = Raise e ->
         requests (snd (main env Bot now ws)) = []).
Proof.
  repeat apply conj.
  - intros ws s. apply requests_after.
  - intros w w' s s1 u Htry.
    destruct (main_try_Return env w s s1 u Htry) as (_ & d & l & evs & Hfetch & _ & Hts & _).
    exists d. split; [exact Hfetch |].
    rewrite requests_after. simpl.
    rewrite (main_iteration_ok env w s s1 u Htry). cbn [extend timestamp].
    rewrite Hts. reflexivity.
  - intros w w' s s1 e Htry. rewrite requests_after. simpl.
    rewrite (main_iteration_fail env w s s1 e Htry). reflexivity.
  - intros Hok Bot now w ws u HBot. unfold main. rewrite Hok, HBot. cbn [negb].
    fold (start now). rewrite main_loop_Return. cbn [snd].
    pose proof (requests_after (w :: ws) (start now)) as Hrq.
    unfold since in Hrq. simpl in Hrq. rewrite drop_0 in Hrq. exact Hrq.
  - intros Bot now ws e HBot. unfold main. rewrite HBot.
    destruct (check_tokens env); reflexivity.
Qed.

(** X11: a turn that succeeds does not re-arm the notification of an
    error: [last_sent_error] goes through it unchanged, so when the next
    turn fails with the text that was sent last before the success, the
    bot is not called. *)
Theorem success_keeps_last_error (msg : string) (w w' : world) (s s1 : state) (u : unit) :
  last_sent_error s = msg ->
  main_try env w s = (Return u, s1) ->
  fails_with env msg w' (snd (main_iteration env w s)) ->
  last_sent_error (snd (main_iteration env w s)) = msg
  /\ sends (since (snd (main_iteration env w s))
              (snd (main_iteration env w' (snd (main_iteration env w s))))) = [].
Proof.
  intros Hlast Htry Hfail.
  assert (Hkept : last_sent_error (snd (main_iteration env w s)) = msg).
  { rewrite (main_iteration_ok env w s s1 u Htry). cbn [extend last_sent_error].
    rewrite (proj1 (main_try_Return env w s s1 u Htry)). exact Hlast. }
  split; [exact Hkept |].
  rewrite (fail_again env msg w' _ Hfail (eq_sym Hkept)).
  erewrite since_output by reflexivity. reflexivity.
Qed.

(** X12: the text of a failure is compared with the text of the failure
    before it and with nothing older: a turn that fails right after a
    turn that failed with another text always calls the bot, also with a
    text that was sent at some earlier time. *)
Theorem changed_error_is_notified (a b : string) (w w' : world) (s : state) :
  fails_with env a w s ->
  fails_with env b w' (snd (main_iteration env w s)) ->
  a <> b ->
  sends (since (snd (main_iteration env w s))
           (snd (main_iteration env w' (snd (main_iteration env w s))))) = [b].
Proof.
  intros Hfa Hfb Hne.
  assert (Hlast : last_sent_error (snd (main_iteration env w s)) = a).
  { destruct Hfa as (e & s1 & Htry & <-).
    rewrite (main_iteration_fail env w s s1 e Htry). reflexivity. }
  rewrite (fail_new env b w' _ Hfb) by (rewrite Hlast; congruence).
  erewrite since_output by reflexivity. reflexivity.
Qed.

Lemma last_sent_error_turn (w : world) (s : state) :
  last_sent_error (snd (main_iteration env w s)) = last_sent_error s
  \/ In (last_sent_error (snd (main_iteration env w s)))
        (sends (since s (snd (main_iteration env w s)))).
Proof.
  destruct (main_try env w s) as [[u|e] s1] eqn:Htry.
  - left. rewrite (main_iteration_ok env w s s1 u Htry). cbn [extend last_sent_error].
    exact (proj1 (main_try_Return env w s s1 u Htry)).
  - rewrite (main_iteration_fail env w s s1 e Htry). cbn [last_sent_error].
    erewrite since_output by reflexivity.
    destruct (String.eqb_spec (failure_message e) (last_sent_error s)) as [Heq|Hne].
    + left. exact Heq.
    + right. simpl. auto.
Qed.

(** X13: [last_sent_error] only ever holds a text that was handed to the
    bot: after any run it is what it was at the start or one of the texts
    sent during the run.  From the start of [main] it is the empty string
    or a text that was sent. *)
Theorem last_sent_error_was_sent :
  (forall (ws : list world) (s : state),
      last_sent_error (after env ws s) = last_sent_error s
      \/ In (last_sent_error (after env ws s)) (sends (since s (after env ws s))))
  /\ (forall (now : Z) (ws : list world),
         last_sent_error (after env ws (start now)) = ""
         \/ In (last_sent_error (after env ws (start now)))
               (sends (output (after env ws (start now))))).
Proof.
  assert (Hrun : forall (ws : list world) (s : state),
      last_sent_error (after env ws s) = last_sent_error s
      \/ In (last_sent_error (after env ws s)) (sends (since s (after env ws s)))).
  { induction ws as [|w ws IH]; intros s; [left; reflexivity |].
    rewrite since_after_cons, sends_app, after_cons.
    destruct (IH (snd (main_iteration env w s))) as [Hsame|Hin].
    - rewrite Hsame. destruct (last_sent_error_turn w s) as [Hsame'|Hin'].
      + left. exact Hsame'.
      + right. apply in_or_app. left. exact Hin'.
    - right. apply in_or_app. right. exact Hin. }
  split; [exact Hrun |].
  intros now ws. destruct (Hrun ws (start now)) as [Hsame|Hin]; [left; exact Hsame |].
  right. unfold since in Hin. simpl in Hin. rewrite drop_0 in Hin. exact Hin.
Qed.

(** X14: a variable that is not set (for which [os.getenv] gives [None])
    stops [main] at once, whichever of the three it is and whatever the
    constructor of the bot would do: one critical line is logged, the
    exit code is -1, and no request is made, no message sent and no pause
    taken. *)
Theorem unset_variable_exits (Bot : pyval -> outcome unit) (now : Z) (ws : list world) :
  PRACTICUM_TOKEN env = PNone \/ TELEGRAM_TOKEN env = PNone \/ TELEGRAM_CHAT_ID env = PNone ->
  main env Bot now ws =
    (Exited (-1),
     [Log CRITICAL ("Ошибка при загрузке переменных окружения. "
                    ++ "Программа принудительно остановлена")])
  /\ requests (snd (main env Bot now ws)) = []
  /\ sends (snd (main env Bot now ws)) = []
  /\ sleeps (snd (main env Bot now ws)) = [].
Proof.
  intros Hunset.
  assert (Hno : check_tokens env = false).
  { unfold check_tokens. destruct Hunset as [Hv | [Hv | Hv]]; rewrite Hv; simpl.
    - reflexivity.
    - apply andb_false_iff. left. apply andb_false_r.
    - apply andb_false_r. }
  unfold main. rewrite Hno. repeat split.
Qed.

End Chains.

(** ** The further properties at the sample data *)

Lemma moved_fails (s : state) :
  fails_with (H := sample_runtime) sample_env unknown_status_text moved_world s.
Proof.
  exists (ResponseError "Недокументированный статус домашней работы"), (requested s).
  split; reflexivity.
Qed.

Lemma empty_list_turn_witness :
  main_iteration (H := sample_runtime) sample_env empty_list_world (start 1700000000)
  = (Return tt,
     {| timestamp := PInt 1700000600;
        last_sent_error := "";
        output := [HttpGet (PInt 1700000000); Sleep 600] |}).
Proof.
  exact (@empty_list_turn sample_runtime sample_env empty_list_world (start 1700000000)
           {[ "homeworks" := PList []; "current_date" := PInt 1700000600 ]}
           eq_refl eq_refl).
Defined.


Lemma bad_record_turn_witness :
  timestamp (snd (main_iteration (H := sample_runtime) sample_env moved_world (start 0)))
  = PInt 0
  /\ sends (since (start 0)
              (snd (main_iteration (H := sample_runtime) sample_env moved_world (start 0))))
     = [unknown_status_text]
  /\ requests
       (since (snd (main_iteration (H := sample_runtime) sample_env moved_world (start 0)))
          (snd (main_iteration (H := sample_runtime) sample_env approved_world
                  (snd (main_iteration (H := sample_runtime) sample_env moved_world
                          (start 0))))))
     = [PInt 0].
Proof.
  apply (@bad_record_turn sample_runtime sample_env moved_world approved_world (start 0)
           {[ "homeworks" := PList [hw_moved]; "current_date" := PInt 1700001200 ]}
           hw_moved [] (ResponseError "Недокументированный статус домашней работы"));
    reflexivity.
Defined.

Lemma request_chain_witness :
  requests (since (start 0)
              (after (H := sample_runtime) sample_env [moved_world; approved_world] (start 0)))
  = [PInt 0; PInt 0]
  /\ (exists d : gmap string pyval,
         fst (get_api_answer approved_world (PInt 0) (start 0)) = Return (PDict d)
         /\ requests (since (start 0)
                        (after (H := sample_runtime) sample_env
                           [approved_world; empty_list_world] (start 0)))
            = [PInt 0; default PNone (d !! "current_date")])
  /\ requests (snd (main (H := sample_runtime) sample_env lenient_Bot 7 [empty_list_world]))
     = [PInt 7]
  /\ requests (snd (main (H := sample_runtime) sample_env strict_Bot 7 [empty_list_world]))
     = [].
Proof.
  split; [| split; [| split]].
  - apply (proj1 (proj2 (proj2 (@request_chain sample_runtime sample_env)))
             moved_world approved_world (start 0) (requested (start 0))
             (ResponseError "Недокументированный статус домашней работы")).
    reflexivity.
  - eapply (proj1 (proj2 (@request_chain sample_runtime sample_env))
              approved_world empty_list_world (start 0) _ tt).
    reflexivity.
  - exact (proj1 (proj2 (proj2 (proj2 (@request_chain sample_runtime sample_env))))
             eq_refl lenient_Bot 7%Z empty_list_world [] tt eq_refl).
  - exact (proj2 (proj2 (proj2 (proj2 (@request_chain sample_runtime sample_env))))
             strict_Bot 7%Z [empty_list_world]
             (OtherException "InvalidToken" "Invalid token") eq_refl).
Defined.

Lemma success_keeps_last_error_witness :
  sends
    (since
       (snd (main_iteration (H := sample_runtime) sample_env empty_list_world
               (snd (main_iteration (H := sample_runtime) sample_env moved_world (start 0)))))
       (snd (main_iteration (H := sample_runtime) sample_env moved_world
               (snd (main_iteration (H := sample_runtime) sample_env empty_list_world
                       (snd (main_iteration (H := sample_runtime) sample_env moved_world
                               (start 0))))))))
  = [].
Proof.
  eapply (proj2 (@success_keeps_last_error sample_runtime sample_env unknown_status_text
                   empty_list_world moved_world
                   (snd (main_iteration (H := sample_runtime) sample_env moved_world
                           (start 0)))
                   _ tt eq_refl eq_refl (moved_fails _))).
Defined.

Lemma changed_error_is_notified_witness :
  sends
    (since
       (snd (main_iteration (H := sample_runtime) sample_env server_error_world (start 0)))
       (snd (main_iteration (H := sample_runtime) sample_env moved_world
               (snd (main_iteration (H := sample_runtime) sample_env server_error_world
                       (start 0))))))
  = [unknown_status_text].
Proof.
  apply (@changed_error_is_notified sample_runtime sample_env server_error_text
           unknown_status_text server_error_world moved_world (start 0)
           (server_error_fails _) (moved_fails _)).
  discriminate.
Defined.

Lemma unset_variable_exits_witness :
  main (H := sample_runtime) no_chat_env strict_Bot 0 [approved_world]
  = (Exited (-1),
     [Log CRITICAL ("Ошибка при загрузке переменных окружения. "
                    ++ "Программа принудительно остановлена")]).
Proof.
  apply (proj1 (@unset_variable_exits sample_runtime no_chat_env strict_Bot 0%Z
                  [approved_world]
                  (or_intror (or_intror eq_refl)))).
Defined.
